(** * trainer/preprocess_data.py: the variant preprocessing pipeline

    A shallow embedding of [src/trainer/preprocess_data.py]: the query
    replacement tables, [variants_to_examples], the command line options of
    [PreprocessOptions] and [run].

    Python values are a small tagged union, dictionaries are [gmap]s, a
    raised exception is the [Raise] branch of an error monad.  A Beam
    [PCollection] is the list of its elements in the order in which the
    runner happens to deliver them; the properties that must not depend on
    that order are proved for every permutation of the list. *)

From Stdlib Require Import ZArith Ascii String.
From stdpp Require Import gmap strings list fin_maps.

Open Scope string_scope.

(** ** Python values and exceptions *)

Inductive pyval : Type :=
  | PyNone
  | PyBool (b : bool)
  | PyInt (z : Z)
  | PyStr (s : string).

#[global] Instance pyval_eq_dec : EqDecision pyval.
Proof. solve_decision. Defined.

(** A row of a [BigQuerySource]: a dictionary from column name to value. *)
Abbreviation row := (gmap string pyval).

Inductive exn : Type :=
  | KeyError (key : string)
  | ValueError (msg : string)
  | TypeError (msg : string)
  | AttributeError (name : string)
  | IOError (path : string)
  | ArgumentError (msg : string)
  | Exception (msg : string).

Inductive result (A : Type) : Type :=
  | Ok (a : A)
  | Raise (e : exn).
Arguments Ok {A} a.
Arguments Raise {A} e.

#[global] Instance result_ret : MRet result := λ A a, Ok a.
#[global] Instance result_bind : MBind result := λ A B f m,
  match m with
  | Ok a => f a
  | Raise e => Raise e
  end.
#[global] Instance result_fmap : FMap result := λ A B f m,
  match m with
  | Ok a => Ok (f a)
  | Raise e => Raise e
  end.

Definition is_Ok {A} (m : result A) : Prop := ∃ a, m = Ok a.
Definition is_Raise {A} (m : result A) : Prop := ∃ e, m = Raise e.

(** [d[k]] on a dictionary: [KeyError] when the key is absent. *)
Definition getitem (d : row) (k : string) : result pyval :=
  match d !! k with
  | Some v => Ok v
  | None => Raise (KeyError k)
  end.

(** ** The Beam transforms used by the pipeline *)

(** [beam.Map(fn)]: [fn] is applied to every element; an exception raised
    for any element fails the transform, and with it the pipeline. *)
Fixpoint beam_Map {A B} (fn : A → result B) (pcoll : list A) : result (list B) :=
  match pcoll with
  | [] => Ok []
  | x :: rest =>
      y ← fn x;
      ys ← beam_Map fn rest;
      Ok (y :: ys)
  end.

(** The values that a keyed collection holds under key [k], in arrival
    order. *)
Definition values_of `{EqDecision K} {V} (k : K) (kvs : list (K * V)) : list V :=
  (filter (λ kv, kv.1 = k) kvs).*2.

(** [beam.GroupByKey()]: one element [(k, values)] for each distinct key
    of the input, holding every value that arrived under that key. *)
Definition GroupByKey `{EqDecision K} {V} (kvs : list (K * V)) : list (K * list V) :=
  (λ k, (k, values_of k kvs)) <$> remove_dups (kvs.*1).

(** [beam.pvalue.AsSingleton(pcoll)]: the only element of [pcoll].  A
    collection of several elements is an error; an empty one has no value
    to hand to the function and is an error here as well ([run] never
    builds one: [CombineGlobally] always yields one element). *)
Definition AsSingleton {A} (pcoll : list A) : result A :=
  match pcoll with
  | [x] => Ok x
  | [] => Raise (ValueError "PCollection of size 0 accessed as a singleton view")
  | _ => Raise (ValueError "PCollection with more than one element accessed as a singleton view")
  end.

(** A [beam.CombineFn]. *)
Record CombineFn (In Acc Out : Type) : Type := {
  create_accumulator : Acc;
  add_input : Acc → In → Acc;
  merge_accumulators : list Acc → Acc;
  extract_output : Acc → Out;
}.
Arguments create_accumulator {In Acc Out} _.
Arguments add_input {In Acc Out} _ _ _.
Arguments merge_accumulators {In Acc Out} _ _.
Arguments extract_output {In Acc Out} _ _.

(** [beam.CombineGlobally(fn)]: the whole input is folded into one
    accumulator and the output collection holds the single extracted
    value. *)
Definition CombineGlobally {In Acc Out} (fn : CombineFn In Acc Out)
    (pcoll : list In) : list Out :=
  [extract_output fn
     (merge_accumulators fn
        [foldl (add_input fn) (create_accumulator fn) pcoll])].

(** ** Column names

    [trainer.feature_encoder] and [trainer.ancestry_metadata_encoder] hold
    the column name constants; their values are not fixed here. *)
Class ColumnNames : Type := {
  KEY_COLUMN : string;
  CONTIG_COLUMN : string;
  START_COLUMN : string;
  END_COLUMN : string;
  REF_COLUMN : string;
  ALT_COLUMN : string;
  ALT_NUM_COLUMN : string;
  FIRST_ALLELE_COLUMN : string;
  SECOND_ALLELE_COLUMN : string;
  POPULATION_COLUMN : string;
  SUPER_POPULATION_COLUMN : string;
  GENDER_COLUMN : string;
}.

Section replacements.
Context {cols : ColumnNames}.

Definition METADATA_QUERY_REPLACEMENTS : gmap string string := list_to_map [
  ("KEY_COLUMN", KEY_COLUMN);
  ("POPULATION_COLUMN", POPULATION_COLUMN);
  ("SUPER_POPULATION_COLUMN", SUPER_POPULATION_COLUMN);
  ("GENDER_COLUMN", GENDER_COLUMN)
].

Definition DATA_QUERY_REPLACEMENTS : gmap string string := list_to_map [
  ("KEY_COLUMN", KEY_COLUMN);
  ("CONTIG_COLUMN", CONTIG_COLUMN);
  ("START_COLUMN", START_COLUMN);
  ("END_COLUMN", END_COLUMN);
  ("REF_COLUMN", REF_COLUMN);
  ("ALT_COLUMN", ALT_COLUMN);
  ("ALT_NUM_COLUMN", ALT_NUM_COLUMN);
  ("FIRST_ALLELE_COLUMN", FIRST_ALLELE_COLUMN);
  ("SECOND_ALLELE_COLUMN", SECOND_ALLELE_COLUMN)
].

(** ** variants_to_examples *)

Definition variants_to_examples {M E} (input_data : list row)
    (samples_metadata : list M)
    (sample_to_example_fn : pyval → list row → M → result E)
    : result (list E) :=
  variant_kvs ← beam_Map (λ row, k ← getitem row KEY_COLUMN; Ok (k, row)) input_data;
  let sample_variant_kvs := GroupByKey variant_kvs in
  side ← AsSingleton samples_metadata;
  beam_Map (λ '(key, vals), sample_to_example_fn key vals side)
    sample_variant_kvs.

(** The function that [BucketVariants] maps over the rows, by name. *)
Definition key_fn (r : row) : result (pyval * row) :=
  k ← getitem r KEY_COLUMN; Ok (k, r).
End replacements.

(** ** argparse

    The command line is given as the sequence of option occurrences that
    [argparse] recognises in it: an option string alone, an option string
    with its argument ([--name arg] or [--name=arg]), or a positional
    argument.  [parse_known_args] leaves unknown options and positionals
    aside. *)

Inductive cli_arg : Type :=
  | Flag (option_string : string)
  | Option (option_string : string) (arg_string : string)
  | Positional (arg_string : string).

Inductive action_kind : Type := store | store_true | store_false.

Record Action : Type := {
  option_string : string;
  dest : string;
  kind : action_kind;
  default_value : pyval;
  type_func : option (string → result pyval);
  is_required : bool;
}.

Record ArgumentParser : Type := {
  _actions : list Action;
  _defaults : gmap string pyval;
}.

Definition new_parser : ArgumentParser :=
  {| _actions := []; _defaults := ∅ |}.

Fixpoint lstrip_dashes (s : string) : string :=
  match s with
  | String "-" s' => lstrip_dashes s'
  | _ => s
  end.

Fixpoint replace_dash (s : string) : string :=
  match s with
  | "" => ""
  | String c s' => String (if Ascii.eqb c "-" then "_"%char else c) (replace_dash s')
  end.

(** The default of an action that gives none: [None] for [store], the
    opposite constant for [store_true] and [store_false]. *)
Definition action_default (a : action_kind) : pyval :=
  match a with
  | store => PyNone
  | store_true => PyBool false
  | store_false => PyBool true
  end.

(** [parser.add_argument(name, dest=..., action=..., type=..., required=...)];
    a missing [dest] is derived from the option string, and a parser-level
    default already set for the destination becomes the action's default. *)
Definition add_argument (parser : ArgumentParser) (name : string)
    (dest : option string) (action : action_kind)
    (type : option (string → result pyval)) (required : bool) : ArgumentParser :=
  let d := default (replace_dash (lstrip_dashes name)) dest in
  let dflt := default (action_default action) (_defaults parser !! d) in
  {| _actions := _actions parser ++
       [{| option_string := name; dest := d; kind := action;
           default_value := dflt; type_func := type; is_required := required |}];
     _defaults := _defaults parser |}.

(** [parser.set_defaults] with its keyword arguments: recorded at parser level and written
    into every action already registered for one of the destinations. *)
Definition set_defaults (parser : ArgumentParser) (kwargs : gmap string pyval)
    : ArgumentParser :=
  {| _actions :=
       (λ a, match kwargs !! a.(dest) with
             | Some v => {| option_string := a.(option_string); dest := a.(dest);
                            kind := a.(kind); default_value := v;
                            type_func := a.(type_func);
                            is_required := a.(is_required) |}
             | None => a
             end) <$> _actions parser;
     _defaults := kwargs ∪ _defaults parser |}.

(** The namespace before any argument is consumed: action defaults in
    registration order, first one wins, then parser-level defaults for
    the destinations still missing. *)
Definition initial_namespace (parser : ArgumentParser) : gmap string pyval :=
  foldl (λ ns a, match ns !! a.(dest) with
                 | Some _ => ns
                 | None => <[a.(dest) := a.(default_value)]> ns
                 end) ∅ (_actions parser)
  ∪ _defaults parser.

Definition find_action (parser : ArgumentParser) (s : string) : option Action :=
  list_find (λ a, a.(option_string) = s) (_actions parser) ≫= λ ia, Some ia.2.

(** [_get_value]: the argument string converted by the action's [type];
    a conversion error is an argument error. *)
Definition get_value (a : Action) (arg_string : string) : result pyval :=
  match a.(type_func) with
  | None => Ok (PyStr arg_string)
  | Some convert =>
      match convert arg_string with
      | Ok v => Ok v
      | Raise _ => Raise (ArgumentError ("argument " ++ a.(option_string) ++ ": invalid value"))
      end
  end.

(** One occurrence consumed: the namespace and the option strings seen so
    far are updated. *)
Definition take_action (parser : ArgumentParser)
    (st : gmap string pyval * list string) (arg : cli_arg)
    : result (gmap string pyval * list string) :=
  match arg with
  | Positional _ => Ok st
  | Flag s =>
      match find_action parser s with
      | None => Ok st
      | Some a =>
          match a.(kind) with
          | store => Raise (ArgumentError ("argument " ++ s ++ ": expected one argument"))
          | store_true => Ok (<[a.(dest) := PyBool true]> st.1, s :: st.2)
          | store_false => Ok (<[a.(dest) := PyBool false]> st.1, s :: st.2)
          end
      end
  | Option s v =>
      match find_action parser s with
      | None => Ok st
      | Some a =>
          match a.(kind) with
          | store => x ← get_value a v; Ok (<[a.(dest) := x]> st.1, s :: st.2)
          | _ => Raise (ArgumentError ("argument " ++ s ++ ": ignored explicit argument"))
          end
      end
  end.

Fixpoint consume (parser : ArgumentParser) (st : gmap string pyval * list string)
    (args : list cli_arg) : result (gmap string pyval * list string) :=
  match args with
  | [] => Ok st
  | arg :: rest => st' ← take_action parser st arg; consume parser st' rest
  end.

(** Every required action must have been seen. *)
Fixpoint check_required (actions : list Action) (seen : list string) : result unit :=
  match actions with
  | [] => Ok ()
  | a :: rest =>
      if a.(is_required) && negb (bool_decide (a.(option_string) ∈ seen))
      then Raise (ArgumentError ("argument " ++ a.(option_string) ++ " is required"))
      else check_required rest seen
  end.

Definition parse_known_args (parser : ArgumentParser) (args : list cli_arg)
    : result (gmap string pyval) :=
  st ← consume parser (initial_namespace parser, []) args;
  _ ← check_required (_actions parser) st.2;
  Ok st.1.

(** Attribute access on the parsed options. *)
Definition getattr (ns : gmap string pyval) (name : string) : result pyval :=
  match ns !! name with
  | Some v => Ok v
  | None => Raise (AttributeError name)
  end.

(** ** int(str), the [type] of [--bin_size] *)

Definition is_space (c : ascii) : bool :=
  bool_decide (c ∈ [" "; "009"; "010"; "011"; "012"; "013"]%char).

Fixpoint lstrip (s : string) : string :=
  match s with
  | String c s' => if is_space c then lstrip s' else s
  | "" => ""
  end.

Definition strip (s : string) : string :=
  String.rev (lstrip (String.rev (lstrip s))).

Definition digit_of (c : ascii) : option Z :=
  let n := Z.of_nat (nat_of_ascii c) in
  if bool_decide (48 ≤ n ≤ 57)%Z then Some (n - 48)%Z else None.

Fixpoint digits_value (acc : Z) (s : string) : option Z :=
  match s with
  | "" => Some acc
  | String c s' =>
      match digit_of c with
      | Some d => digits_value (10 * acc + d)%Z s'
      | None => None
      end
  end.

(** Decimal literals with an optional sign, surrounding white space
    ignored; anything else is a [ValueError]. *)
Definition int (s : string) : result pyval :=
  let s := strip s in
  let '(negative, body) :=
    match s with
    | String "-" r => (true, r)
    | String "+" r => (false, r)
    | _ => (false, s)
    end in
  match body with
  | "" => Raise (ValueError "invalid literal for int() with base 10")
  | _ =>
      match digits_value 0 body with
      | Some z => Ok (PyInt (if negative : bool then - z else z)%Z)
      | None => Raise (ValueError "invalid literal for int() with base 10")
      end
  end.

(** ** PreprocessOptions *)

Module PreprocessOptions.
Definition _add_argparse_args (parser : ArgumentParser) : ArgumentParser :=
  let parser := add_argument parser "--output" None store None true in
  let parser := add_argument parser "--input" None store None true in
  let parser := add_argument parser "--metadata" None store None true in
  let parser := add_argument parser "--hethom_words" (Some "add_hethom") store_true None false in
  let parser := add_argument parser "--no_hethom_words" (Some "add_hethom") store_false None false in
  let parser := set_defaults parser {[ "add_hethom" := PyBool true ]} in
  add_argument parser "--bin_size" None store (Some int) false.
End PreprocessOptions.

(** The actions that the parser of [PreprocessOptions] ends up with. *)
Definition output_action : Action :=
  {| option_string := "--output"; dest := "output"; kind := store;
     default_value := PyNone; type_func := None; is_required := true |}.
Definition input_action : Action :=
  {| option_string := "--input"; dest := "input"; kind := store;
     default_value := PyNone; type_func := None; is_required := true |}.
Definition metadata_action : Action :=
  {| option_string := "--metadata"; dest := "metadata"; kind := store;
     default_value := PyNone; type_func := None; is_required := true |}.
Definition hethom_words_action : Action :=
  {| option_string := "--hethom_words"; dest := "add_hethom"; kind := store_true;
     default_value := PyBool true; type_func := None; is_required := false |}.
Definition no_hethom_words_action : Action :=
  {| option_string := "--no_hethom_words"; dest := "add_hethom";
     kind := store_false; default_value := PyBool true; type_func := None;
     is_required := false |}.
Definition bin_size_action : Action :=
  {| option_string := "--bin_size"; dest := "bin_size"; kind := store;
     default_value := PyNone; type_func := Some int; is_required := false |}.

(** [PipelineOptions(flags=argv).view_as(PreprocessOptions)]: the flags
    parsed by a parser that holds the arguments of [PreprocessOptions]. *)
Definition preprocess_parser : ArgumentParser :=
  PreprocessOptions._add_argparse_args new_parser.

Definition view_as_PreprocessOptions (argv : list cli_arg) : result (gmap string pyval) :=
  parse_known_args preprocess_parser argv.

(** ** os.path.join and datetime.strftime *)

Definition startswith_slash (s : string) : bool :=
  match s with
  | String c _ => Ascii.eqb c "/"
  | "" => false
  end.

Fixpoint endswith_slash (s : string) : bool :=
  match s with
  | "" => false
  | String c "" => Ascii.eqb c "/"
  | String _ s' => endswith_slash s'
  end.

(** One step of [posixpath.join]: an absolute component replaces the path
    built so far, any other is appended after exactly one separator. *)
Definition join_component (path b : string) : string :=
  if startswith_slash b then b
  else if bool_decide (path = "") || endswith_slash path then path ++ b
  else path ++ "/" ++ b.

Definition os_path_join (a : string) (p : list string) : string :=
  foldl join_component a p.

Record datetime : Type := {
  year : Z;
  month : Z;
  day : Z;
  hour : Z;
  minute : Z;
  second : Z;
  microsecond : Z;
}.

(** The ranges that the [datetime] type guarantees, with the lower bound
    on the year that [strftime] asks for. *)
Definition datetime_valid (dt : datetime) : Prop :=
  (1900 ≤ year dt ≤ 9999 ∧ 1 ≤ month dt ≤ 12 ∧ 1 ≤ day dt ≤ 31 ∧
   0 ≤ hour dt ≤ 23 ∧ 0 ≤ minute dt ≤ 59 ∧ 0 ≤ second dt ≤ 59)%Z.

(** The date and time of a reading of the clock, to the second. *)
Definition to_the_second (dt : datetime) : Z * Z * Z * Z * Z * Z :=
  (year dt, month dt, day dt, hour dt, minute dt, second dt).

Definition digit_char (d : Z) : ascii := ascii_of_nat (48 + Z.to_nat d).

(** A field printed on two, respectively four, decimal digits. *)
Definition pad2 (n : Z) : string :=
  String (digit_char ((n / 10) `mod` 10)) (String (digit_char (n `mod` 10)) "").

Definition pad4 (n : Z) : string :=
  String (digit_char ((n / 1000) `mod` 10))
    (String (digit_char ((n / 100) `mod` 10)) (pad2 n)).

Definition directive (dt : datetime) (d : ascii) : string :=
  if Ascii.eqb d "Y" then pad4 (year dt)
  else if Ascii.eqb d "y" then pad2 (year dt `mod` 100)
  else if Ascii.eqb d "m" then pad2 (month dt)
  else if Ascii.eqb d "d" then pad2 (day dt)
  else if Ascii.eqb d "H" then pad2 (hour dt)
  else if Ascii.eqb d "M" then pad2 (minute dt)
  else if Ascii.eqb d "S" then pad2 (second dt)
  else if Ascii.eqb d "%" then "%"
  else String "%" (String d "").

Fixpoint expand_format (dt : datetime) (fmt : string) : string :=
  match fmt with
  | "" => ""
  | String c rest =>
      if Ascii.eqb c "%" then
        match rest with
        | String d rest' => directive dt d ++ expand_format dt rest'
        | "" => "%"
        end
      else String c (expand_format dt rest)
  end.

(** [dt.strftime(fmt)] for the directives above; years before 1900 are
    refused. *)
Definition strftime (dt : datetime) (fmt : string) : result string :=
  if bool_decide (year dt < 1900)%Z
  then Raise (ValueError "the datetime strftime() methods require year >= 1900")
  else Ok (expand_format dt fmt).

(** ** The encoder strategies

    Modelled from the spec: the strategy builders of
    [trainer.variant_encoder], [trainer.ancestry_metadata_encoder] and
    [trainer.feature_encoder] are not in this file.  The spec has them
    select a strategy and nothing else, so a strategy is recorded as the
    call that built it, with the arguments [run] gave, and building one
    never raises; what a strategy computes when applied is supplied by
    [Collaborators] below. *)

Module variant_encoder.
Inductive feature_name_fn : Type :=
  | variant_to_contig_feature_name
  | build_variant_to_binned_feature_name (bin_size : pyval).

Inductive words_fn : Type :=
  | build_variant_to_words (add_hethom : pyval).

Inductive features_fn : Type :=
  | build_variants_to_features
      (variant_to_feature_name_fn : feature_name_fn)
      (variant_to_words_fn : words_fn).
End variant_encoder.

Module metadata_encoder.
Inductive features_fn : Type :=
  | metadata_to_ancestry_features.
End metadata_encoder.

Module encoder.
Inductive sample_to_example_fn : Type :=
  | build_sample_to_example
      (metadata_to_features_fn : metadata_encoder.features_fn)
      (variants_to_features_fn : variant_encoder.features_fn).
End encoder.

(** What [run] takes from outside this file: the metadata combiner of
    [trainer.util], the behaviour of an assembled sample-to-example
    strategy, the serialisation of an example, and the rendering of a
    Jinja template with a replacement table. *)
Class Collaborators : Type := {
  MetadataDict : Type;
  Accumulator : Type;
  Example : Type;
  TableToDictCombineFn : string → CombineFn row Accumulator MetadataDict;
  call : encoder.sample_to_example_fn →
         pyval → list row → MetadataDict → result Example;
  SerializeToString : Example → string;
  render : string → gmap string string → result string;
}.

(** What one execution of [run] finds around it: the successive readings
    of the clock, the files it can open, and the rows that a query
    returns. *)
Record Environment : Type := {
  now : nat → datetime;
  files : gmap string string;
  BigQuerySource : string → result (list row);
}.

Definition open_read (env : Environment) (path : string) : result string :=
  match files env !! path with
  | Some text => Ok text
  | None => Raise (IOError path)
  end.

Definition as_str (v : pyval) : result string :=
  match v with
  | PyStr s => Ok s
  | _ => Raise (TypeError "expected a string")
  end.

(** The strategy for feature names that [run] picks for a value of
    [bin_size]. *)
Definition feature_name_strategy (bin_size : pyval) : variant_encoder.feature_name_fn :=
  match bin_size with
  | PyNone => variant_encoder.variant_to_contig_feature_name
  | _ => variant_encoder.build_variant_to_binned_feature_name bin_size
  end.

(** ** run *)

(** Everything [run] has fixed when it opens the pipeline. *)
Record Setup : Type := {
  output_dir : string;
  save_main_session : bool;
  autoscaling_algorithm : string;
  staging_location : string;
  temp_location : string;
  job_name : string;
  metadata_query : string;
  data_query : string;
  sample_to_example_fn : encoder.sample_to_example_fn;
}.

Inductive CompressionTypes : Type := AUTO | GZIP | UNCOMPRESSED.

(** The arguments and the records of [WriteToTFRecord]. *)
Record TFRecordSink : Type := {
  file_path_prefix : string;
  compression_type : CompressionTypes;
  file_name_suffix : string;
  records : list string;
}.

Section run.
Context {cols : ColumnNames} {collab : Collaborators}.

Definition run_setup (argv : list cli_arg) (env : Environment) : result Setup :=
  preprocess_options ← view_as_PreprocessOptions argv;
  output ← getattr preprocess_options "output" ≫= as_str;
  stamp ← strftime (now env 0) "%Y%m%d-%H%M%S";
  let output_dir := os_path_join output [stamp] in
  job_stamp ← strftime (now env 1) "%y%m%d-%H%M%S";
  metadata_path ← getattr preprocess_options "metadata" ≫= as_str;
  metadata_template ← open_read env metadata_path;
  metadata_query ← render metadata_template METADATA_QUERY_REPLACEMENTS;
  input_path ← getattr preprocess_options "input" ≫= as_str;
  data_template ← open_read env input_path;
  data_query ← render data_template DATA_QUERY_REPLACEMENTS;
  bin_size ← getattr preprocess_options "bin_size";
  let variant_to_feature_name_fn :=
    match bin_size with
    | PyNone => variant_encoder.variant_to_contig_feature_name
    | _ => variant_encoder.build_variant_to_binned_feature_name bin_size
    end in
  add_hethom ← getattr preprocess_options "add_hethom";
  let variants_to_features_fn :=
    variant_encoder.build_variants_to_features
      variant_to_feature_name_fn
      (variant_encoder.build_variant_to_words add_hethom) in
  Ok {| output_dir := output_dir;
        save_main_session := true;
        autoscaling_algorithm := "THROUGHPUT_BASED";
        staging_location := os_path_join output_dir ["tmp"; "staging"];
        temp_location := os_path_join output_dir ["tmp"];
        job_name := "preprocess-varianteatures-" ++ job_stamp;
        metadata_query := metadata_query;
        data_query := data_query;
        sample_to_example_fn :=
          encoder.build_sample_to_example
            metadata_encoder.metadata_to_ancestry_features
            variants_to_features_fn |}.

Definition run_pipeline (setup : Setup) (env : Environment) : result TFRecordSink :=
  metadata_rows ← BigQuerySource env (metadata_query setup);
  let samples_metadata :=
    CombineGlobally (TableToDictCombineFn KEY_COLUMN) metadata_rows in
  rows ← BigQuerySource env (data_query setup);
  examples ← variants_to_examples rows samples_metadata
                (call (sample_to_example_fn setup));
  Ok {| file_path_prefix := os_path_join (output_dir setup) ["examples"];
        compression_type := GZIP;
        file_name_suffix := ".tfrecord.gz";
        records := SerializeToString <$> examples |}.

Definition run (argv : list cli_arg) (env : Environment) : result TFRecordSink :=
  setup ← run_setup argv env;
  run_pipeline setup env.
End run.

(** ** What one occurrence does to [add_hethom] and to [bin_size]

    The value an attribute has after an occurrence, given the value it had
    before; used to follow the two attributes through a command line. *)

Definition hethom_step (o : option pyval) (arg : cli_arg) : option pyval :=
  match arg with
  | Flag s =>
      if decide (s = "--hethom_words") then Some (PyBool true)
      else if decide (s = "--no_hethom_words") then Some (PyBool false)
      else o
  | _ => o
  end.

Definition bin_size_step (o : option pyval) (arg : cli_arg) : option pyval :=
  match arg with
  | Option s v =>
      if decide (s = "--bin_size") then
        match int v with
        | Ok x => Some x
        | Raise _ => o
        end
      else o
  | _ => o
  end.

(** ** Outcomes compared up to arrival order *)

(** Two outcomes agree when both raise, or both return and the returned
    values are related. *)
Definition same_outcome {A} (R : A → A → Prop) (m1 m2 : result A) : Prop :=
  match m1, m2 with
  | Ok a, Ok b => R a b
  | Raise _, Raise _ => True
  | _, _ => False
  end.

(** Two collections hold the same records: they match one to one, up to
    the equivalence [R] on records. *)
Definition same_records {E} (R : E → E → Prop) (out1 out2 : list E) : Prop :=
  ∃ out', out2 ≡ₚ out' ∧ Forall2 R out1 out'.

(** ** The command lines that [PreprocessOptions] accepts *)

(** The option string of an occurrence. *)
Definition occurrence_name (arg : cli_arg) : option string :=
  match arg with
  | Flag s => Some s
  | Option s _ => Some s
  | Positional _ => None
  end.

(** An occurrence of one of the six options that [_add_argparse_args]
    declares. *)
Definition recognized (arg : cli_arg) : bool :=
  match occurrence_name arg with
  | Some s =>
      bool_decide (s ∈ ["--output"; "--input"; "--metadata"; "--hethom_words";
                        "--no_hethom_words"; "--bin_size"])
  | None => false
  end.

(** An occurrence that the declarations accept: the options declared with
    the default [store] action come with an argument, an integer literal
    for [--bin_size]; the two flags come without one. *)
Definition acceptable (arg : cli_arg) : bool :=
  match arg with
  | Flag s =>
      negb (bool_decide (s ∈ ["--output"; "--input"; "--metadata"; "--bin_size"]))
  | Option s v =>
      if decide (s = "--bin_size") then
        match int v with
        | Ok _ => true
        | Raise _ => false
        end
      else negb (bool_decide (s ∈ ["--hethom_words"; "--no_hethom_words"]))
  | Positional _ => true
  end.

(** What one occurrence does to the attribute of a [store] option without
    [type]. *)
Definition store_step (name : string) (o : option pyval) (arg : cli_arg)
    : option pyval :=
  match arg with
  | Option s v => if decide (s = name) then Some (PyStr v) else o
  | _ => o
  end.

(** ** A small instance

    Column names, collaborators, rows and an environment on which the
    definitions above can be run.  The assembler of the instance keeps the
    sample key, the rows of the group and the metadata found for the key;
    a template renders to its own text. *)

Module Sample.
Definition columns : ColumnNames :=
  {| KEY_COLUMN := "key";
     CONTIG_COLUMN := "contig";
     START_COLUMN := "start_pos";
     END_COLUMN := "end_pos";
     REF_COLUMN := "ref";
     ALT_COLUMN := "alt";
     ALT_NUM_COLUMN := "alt_num";
     FIRST_ALLELE_COLUMN := "first";
     SECOND_ALLELE_COLUMN := "second";
     POPULATION_COLUMN := "pop";
     SUPER_POPULATION_COLUMN := "sup";
     GENDER_COLUMN := "sex" |}.

Record example : Type := {
  sample_key : pyval;
  variants : list row;
  metadata : option row;
}.

Definition find_metadata (key : pyval) (md : list (pyval * row)) : option row :=
  list_find (λ kv, kv.1 = key) md ≫= λ found, Some found.2.2.

Definition assemble (fn : encoder.sample_to_example_fn) (key : pyval)
    (vals : list row) (md : list (pyval * row)) : result example :=
  Ok {| sample_key := key; variants := vals; metadata := find_metadata key md |}.

(** Two records of the instance are the same up to the order of the
    rows they were built from. *)
Definition same_sample (e1 e2 : example) : Prop :=
  sample_key e1 = sample_key e2 ∧ variants e1 ≡ₚ variants e2 ∧
  metadata e1 = metadata e2.

Definition table_to_dict (key_column : string)
    : CombineFn row (list (pyval * row)) (list (pyval * row)) :=
  {| create_accumulator := [];
     add_input := λ acc r,
       match r !! key_column with
       | Some k => (acc ++ [(k, r)])%list
       | None => acc
       end;
     merge_accumulators := λ accs, mjoin accs;
     extract_output := id |}.

Definition serialize (e : example) : string :=
  match sample_key e with
  | PyStr s => s
  | _ => ""
  end.

Definition collaborators : Collaborators :=
  {| MetadataDict := list (pyval * row);
     Accumulator := list (pyval * row);
     Example := example;
     TableToDictCombineFn := table_to_dict;
     call := assemble;
     SerializeToString := serialize;
     render := λ text _, Ok text |}.

Definition variant (key contig : string) (start : Z) : row :=
  list_to_map [("key", PyStr key); ("contig", PyStr contig);
               ("start_pos", PyInt start)].

Definition variant_rows : list row :=
  [variant "S1" "chr1" 100; variant "S2" "chr1" 200; variant "S1" "chr2" 300].

(** The same rows in another arrival order. *)
Definition variant_rows_swapped : list row :=
  [variant "S2" "chr1" 200; variant "S1" "chr1" 100; variant "S1" "chr2" 300].

(** A row without the sample key among well-formed rows. *)
Definition variant_rows_missing_key : list row :=
  [variant "S1" "chr1" 100; list_to_map [("contig", PyStr "chr1")]].

Definition sample_metadata (key pop sup sex : string) : row :=
  list_to_map [("key", PyStr key); ("pop", PyStr pop); ("sup", PyStr sup);
               ("sex", PyStr sex)].

Definition metadata_rows : list row :=
  [sample_metadata "S1" "GBR" "EUR" "female";
   sample_metadata "S3" "YRI" "AFR" "male"].

Definition metadata_dict : list (pyval * row) :=
  [(PyStr "S1", sample_metadata "S1" "GBR" "EUR" "female");
   (PyStr "S3", sample_metadata "S3" "YRI" "AFR" "male")].

Definition clock (s : Z) : datetime :=
  {| year := 2017; month := 3; day := 9; hour := 14; minute := 5;
     second := s; microsecond := 0 |}.

Definition templates : gmap string string :=
  list_to_map [("metadata.jinja", "SELECT metadata");
               ("input.jinja", "SELECT variants")].

Definition environment (s : Z) (rows : list row) : Environment :=
  {| now := λ _, clock s;
     files := templates;
     BigQuerySource := λ query,
       if decide (query = "SELECT metadata") then Ok metadata_rows
       else if decide (query = "SELECT variants") then Ok rows
       else Raise (Exception "unknown table") |}.

Definition argv : list cli_arg :=
  [Option "--output" "gs://bucket/out"; Option "--input" "input.jinja";
   Option "--metadata" "metadata.jinja"].

(** What [run_setup] yields for [argv] extended with occurrences that
    give [bin_size] and [add_hethom], at second [s] of the clock. *)
Definition setup (s : string) (bin_size add_hethom : pyval) : Setup :=
  {| output_dir := "gs://bucket/out/20170309-1405" ++ s;
     save_main_session := true;
     autoscaling_algorithm := "THROUGHPUT_BASED";
     staging_location := "gs://bucket/out/20170309-1405" ++ s ++ "/tmp/staging";
     temp_location := "gs://bucket/out/20170309-1405" ++ s ++ "/tmp";
     job_name := "preprocess-varianteatures-170309-1405" ++ s;
     metadata_query := "SELECT metadata";
     data_query := "SELECT variants";
     sample_to_example_fn :=
       encoder.build_sample_to_example
         metadata_encoder.metadata_to_ancestry_features
         (variant_encoder.build_variants_to_features
            (feature_name_strategy bin_size)
            (variant_encoder.build_variant_to_words add_hethom)) |}.

(** An assembler that insists on metadata for the sample. *)
Definition assemble_strict (key : pyval) (vals : list row)
    (md : list (pyval * row)) : result example :=
  match find_metadata key md with
  | Some m => Ok {| sample_key := key; variants := vals; metadata := Some m |}
  | None => Raise (KeyError "metadata")
  end.

(** The command line of the usage note: options of other option
    classes come with those of [PreprocessOptions]. *)
Definition usage_argv : list cli_arg :=
  [Option "--setup_file" "./setup.py"; Option "--project" "my-project";
   Option "--metadata" "metadata.jinja"; Option "--input" "input.jinja";
   Option "--output" "gs://bucket/out"].
End Sample.

(** * Properties *)

(** ** Facts about the Beam transforms *)

Section beam_facts.
Context {A B : Type}.
Implicit Types (fn : A → result B) (l : list A) (k : list B).

Lemma beam_Map_Ok fn l k :
  beam_Map fn l = Ok k ↔ Forall2 (λ x y, fn x = Ok y) l k.
Proof.
  split.
  - revert k. induction l as [|x l IH]; intros k; simpl.
    + intros [= <-]. constructor.
    + destruct (fn x) as [y|] eqn:Hx; simpl; [|done].
      destruct (beam_Map fn l) as [ys|]; simpl; [|done].
      intros [= <-]. constructor; auto.
  - induction 1 as [|x y l k Hx _ IH]; simpl; [done|].
    by rewrite Hx, IH.
Qed.

Lemma beam_Map_total fn l :
  Forall (λ x, is_Ok (fn x)) l → is_Ok (beam_Map fn l).
Proof.
  induction 1 as [|x l [y Hy] _ [ys Hys]]; simpl.
  - by eexists.
  - rewrite Hy, Hys. by eexists.
Qed.

Lemma beam_Map_Exists_Raise fn l :
  Exists (λ x, is_Raise (fn x)) l → is_Raise (beam_Map fn l).
Proof.
  induction 1 as [x l [e He]|x l _ [e He]]; simpl.
  - rewrite He. by eexists.
  - destruct (fn x); simpl; [|by eexists]. rewrite He. by eexists.
Qed.

End beam_facts.

Section group_facts.
Context `{EqDecision K} {V : Type}.
Implicit Types (kvs : list (K * V)).

Lemma GroupByKey_keys kvs : (GroupByKey kvs).*1 = remove_dups (kvs.*1).
Proof.
  unfold GroupByKey. rewrite <-list_fmap_compose.
  induction (remove_dups kvs.*1) as [|k ks IH]; [done|].
  rewrite fmap_cons. by f_equal.
Qed.

Lemma GroupByKey_NoDup kvs : NoDup (GroupByKey kvs).*1.
Proof. rewrite GroupByKey_keys. apply NoDup_remove_dups. Qed.

Lemma GroupByKey_elem_of_keys kvs k :
  k ∈ (GroupByKey kvs).*1 ↔ ∃ v, (k, v) ∈ kvs.
Proof.
  rewrite GroupByKey_keys, elem_of_remove_dups, list_elem_of_fmap.
  split.
  - intros ([k' v] & -> & ?). by exists v.
  - intros [v ?]. by exists (k, v).
Qed.

Lemma GroupByKey_elem_of kvs k vals :
  (k, vals) ∈ GroupByKey kvs → vals = values_of k kvs.
Proof.
  unfold GroupByKey. rewrite list_elem_of_fmap.
  by intros (k' & [= -> ->] & _).
Qed.
End group_facts.

(** ** Arrival order *)

Lemma same_outcome_trans {C} (R1 R2 R3 : C → C → Prop) (m1 m2 m3 : result C) :
  (∀ a b c, R1 a b → R2 b c → R3 a c) →
  same_outcome R1 m1 m2 → same_outcome R2 m2 m3 → same_outcome R3 m1 m3.
Proof. destruct m1, m2, m3; simpl; eauto; done. Qed.

Section order_facts.
Context {A B : Type}.

Lemma beam_Map_Permutation (fn : A → result B) (l1 l2 : list A) :
  l1 ≡ₚ l2 → same_outcome (≡ₚ) (beam_Map fn l1) (beam_Map fn l2).
Proof.
  induction 1 as [|x l1 l2 _ IH|x y l|l1 l2 l3 _ IH1 _ IH2]; simpl.
  - done.
  - destruct (fn x); simpl; [|done].
    destruct (beam_Map fn l1), (beam_Map fn l2); simpl in *; try done.
    by constructor.
  - destruct (fn x), (fn y); simpl; try done;
      destruct (beam_Map fn l); simpl; try done.
    apply perm_swap.
  - apply (same_outcome_trans (≡ₚ) (≡ₚ) (≡ₚ) _ (beam_Map fn l2)); [|done..].
    intros ???. apply perm_trans.
Qed.

Lemma beam_Map_Forall2 (R : A → A → Prop) (S : B → B → Prop)
    (fn : A → result B) (l1 l2 : list A) :
  (∀ x y, R x y → same_outcome S (fn x) (fn y)) →
  Forall2 R l1 l2 →
  same_outcome (Forall2 S) (beam_Map fn l1) (beam_Map fn l2).
Proof.
  intros Hfn. induction 1 as [|x y l1 l2 Hxy _ IH]; simpl; [done|].
  specialize (Hfn _ _ Hxy).
  destruct (fn x), (fn y); simpl in *; try done.
  destruct (beam_Map fn l1), (beam_Map fn l2); simpl in *; try done.
  by constructor.
Qed.
End order_facts.

Section group_order.
Context `{EqDecision K} {V : Type}.

Lemma values_of_Permutation (k : K) (kvs1 kvs2 : list (K * V)) :
  kvs1 ≡ₚ kvs2 → values_of k kvs1 ≡ₚ values_of k kvs2.
Proof. intros Hp. unfold values_of. by rewrite Hp. Qed.

Lemma GroupByKey_Permutation (kvs1 kvs2 : list (K * V)) :
  kvs1 ≡ₚ kvs2 →
  ∃ groups,
    GroupByKey kvs2 ≡ₚ groups ∧
    Forall2 (λ g g', g.1 = g'.1 ∧ g.2 ≡ₚ g'.2) (GroupByKey kvs1) groups.
Proof.
  intros Hp.
  exists ((λ k, (k, values_of k kvs2)) <$> remove_dups (kvs1.*1)). split.
  - unfold GroupByKey. apply fmap_Permutation.
    apply NoDup_Permutation; [apply NoDup_remove_dups..|].
    intros k. rewrite !elem_of_remove_dups. by rewrite Hp.
  - unfold GroupByKey. apply Forall2_fmap, Forall_Forall2_diag, Forall_forall.
    intros k _. simpl. split; [done|]. by apply values_of_Permutation.
Qed.
End group_order.

(** ** Grouping by sample key *)

Section grouping.
Context {cols : ColumnNames}.

Lemma key_fn_Ok r kv : key_fn r = Ok kv ↔ r !! KEY_COLUMN = Some kv.1 ∧ kv.2 = r.
Proof.
  unfold key_fn, getitem. destruct kv as [k r']; simpl.
  destruct (r !! KEY_COLUMN) as [k'|]; simpl.
  - split; [by intros [= -> ->]|by intros [[= ->] ->]].
  - split; [done|by intros [? _]].
Qed.

Lemma key_fn_Raise r : r !! KEY_COLUMN = None → key_fn r = Raise (KeyError KEY_COLUMN).
Proof. unfold key_fn, getitem. by intros ->. Qed.

Lemma bucket_variants_Ok (rows : list row) kvs :
  beam_Map key_fn rows = Ok kvs →
  kvs.*2 = rows ∧ Forall (λ kv, kv.2 !! KEY_COLUMN = Some kv.1) kvs.
Proof.
  rewrite beam_Map_Ok. induction 1 as [|r kv rows kvs Hkv _ [IH1 IH2]].
  - by split.
  - apply key_fn_Ok in Hkv as [Hk Hr]. split.
    + rewrite fmap_cons. by f_equal.
    + constructor; [by rewrite Hr|done].
Qed.

Lemma bucket_variants_total (rows : list row) :
  Forall (λ r, is_Some (r !! KEY_COLUMN)) rows → is_Ok (beam_Map key_fn rows).
Proof.
  intros Hall. apply beam_Map_total. eapply Forall_impl; [done|].
  intros r [k Hk]. exists (k, r). by apply key_fn_Ok.
Qed.

Lemma bucket_variants_Raise (rows : list row) :
  Exists (λ r, r !! KEY_COLUMN = None) rows →
  beam_Map key_fn rows = Raise (KeyError KEY_COLUMN).
Proof.
  induction 1 as [r rows Hr|r rows _ IH]; simpl.
  - by rewrite key_fn_Raise.
  - destruct (r !! KEY_COLUMN) as [k|] eqn:Hk.
    + assert (key_fn r = Ok (k, r)) as -> by by apply key_fn_Ok.
      simpl. by rewrite IH.
    + by rewrite key_fn_Raise.
Qed.

Lemma values_of_keyed (kvs : list (pyval * row)) k :
  Forall (λ kv, kv.2 !! KEY_COLUMN = Some kv.1) kvs →
  values_of k kvs = filter (λ r, r !! KEY_COLUMN = Some k) (kvs.*2).
Proof.
  unfold values_of. induction 1 as [|[k' r] kvs Hkv _ IH]; [done|].
  simpl in Hkv. rewrite fmap_cons, !filter_cons. simpl.
  destruct (decide (k' = k)) as [->|Hne].
  - rewrite decide_True by done. rewrite fmap_cons. simpl. by f_equal.
  - rewrite decide_False by congruence. done.
Qed.

Lemma keys_keyed (kvs : list (pyval * row)) k :
  Forall (λ kv, kv.2 !! KEY_COLUMN = Some kv.1) kvs →
  (∃ r, (k, r) ∈ kvs) ↔ ∃ r, r ∈ kvs.*2 ∧ r !! KEY_COLUMN = Some k.
Proof.
  rewrite Forall_forall. intros Hall. split.
  - intros [r Hr]. exists r. split.
    + apply list_elem_of_fmap. by exists (k, r).
    + by apply (Hall _ Hr).
  - intros (r & Hr & Hk). apply list_elem_of_fmap in Hr as ([k' r'] & -> & Hin).
    specialize (Hall _ Hin). simpl in *. exists r'.
    assert (k' = k) as <- by congruence. done.
Qed.

(** The groups that [GroupBySample] hands to [SamplesToExamples]. *)
Lemma sample_groups (rows : list row) kvs :
  beam_Map key_fn rows = Ok kvs →
  NoDup (GroupByKey kvs).*1 ∧
  (∀ k, k ∈ (GroupByKey kvs).*1 ↔ ∃ r, r ∈ rows ∧ r !! KEY_COLUMN = Some k) ∧
  (∀ k vals, (k, vals) ∈ GroupByKey kvs →
     vals = filter (λ r, r !! KEY_COLUMN = Some k) rows).
Proof.
  intros [<- Hall]%bucket_variants_Ok. split_and!.
  - apply GroupByKey_NoDup.
  - intros k. rewrite GroupByKey_elem_of_keys. by apply keys_keyed.
  - intros k vals ->%GroupByKey_elem_of. by apply values_of_keyed.
Qed.

(** The groups and the calls of [SamplesToExamples], whatever the
    assembler function is. *)
Lemma variants_to_examples_groups {M} (input_data : list row) :
  Forall (λ r, is_Some (r !! KEY_COLUMN)) input_data →
  ∃ groups : list (pyval * list row),
    NoDup groups.*1 ∧
    (∀ k, k ∈ groups.*1 ↔ ∃ r, r ∈ input_data ∧ r !! KEY_COLUMN = Some k) ∧
    (∀ k vals, (k, vals) ∈ groups →
       vals = filter (λ r, r !! KEY_COLUMN = Some k) input_data) ∧
    ∀ E (md : M) (sample_to_example_fn : pyval → list row → M → result E),
      variants_to_examples input_data [md] sample_to_example_fn =
      beam_Map (λ '(key, vals), sample_to_example_fn key vals md) groups.
Proof.
  intros [kvs Hkvs]%bucket_variants_total.
  exists (GroupByKey kvs).
  destruct (sample_groups _ _ Hkvs) as (Hnd & Hkeys & Hvals).
  split_and!; [done..|].
  intros E md fn. unfold variants_to_examples.
  fold key_fn. by rewrite Hkvs.
Qed.


(** C6: a variant row without the sample-key column makes the key
    extraction raise [KeyError]; no example is produced, whatever the
    metadata mapping and the assembler function are, and the pipeline of
    [run] fails with the same error once both queries have returned their
    rows. *)
Theorem missing_key_aborts (rows : list row) :
  Exists (λ r, r !! KEY_COLUMN = None) rows →
  (∀ M E (md : M) (sample_to_example_fn : pyval → list row → M → result E),
     variants_to_examples rows [md] sample_to_example_fn =
     Raise (KeyError KEY_COLUMN)) ∧
  (∀ (C : Collaborators) setup env metadata_rows,
     BigQuerySource env (metadata_query setup) = Ok metadata_rows →
     BigQuerySource env (data_query setup) = Ok rows →
     run_pipeline setup env = Raise (KeyError KEY_COLUMN)).
Proof.
  intros Hex%bucket_variants_Raise.
  assert (∀ M E (smd : list M) (fn : pyval → list row → M → result E),
    variants_to_examples rows smd fn = Raise (KeyError KEY_COLUMN)) as Hv.
  { intros. unfold variants_to_examples. fold key_fn. by rewrite Hex. }
  split; [intros; apply Hv|].
  intros C setup env mrows Hm Hd. unfold run_pipeline.
  rewrite Hm. simpl. rewrite Hd. simpl. by rewrite Hv.
Qed.
(** C2: the sample keys of the output are the sample keys of the variant
    rows, whatever the metadata mapping holds: a key without a variant
    row, in the metadata or not, has no output record.  The record of a
    sample is taken to carry its sample key ([key_of]). *)
Theorem output_keys_are_variant_keys {M E}
    (sample_to_example_fn : pyval → list row → M → result E)
    (key_of : E → pyval) (input_data : list row) (md : M) :
  (∀ key vals e, sample_to_example_fn key vals md = Ok e → key_of e = key) →
  (∀ key vals, is_Ok (sample_to_example_fn key vals md)) →
  Forall (λ r, is_Some (r !! KEY_COLUMN)) input_data →
  ∃ out,
    variants_to_examples input_data [md] sample_to_example_fn = Ok out ∧
    (∀ k, k ∈ key_of <$> out ↔ ∃ r, r ∈ input_data ∧ r !! KEY_COLUMN = Some k) ∧
    (∀ k, (∀ r, r ∈ input_data → r !! KEY_COLUMN ≠ Some k) → k ∉ key_of <$> out).
Proof.
  intros Hkey Htotal [kvs Hkvs]%bucket_variants_total.
  destruct (sample_groups _ _ Hkvs) as (_ & Hkeys & _).
  unfold variants_to_examples. fold key_fn. rewrite Hkvs. simpl.
  set (g := λ '(key, vals), sample_to_example_fn key vals md).
  destruct (beam_Map_total g (GroupByKey kvs)) as [out Hout].
  { apply Forall_forall. intros [k vals] _. apply Htotal. }
  exists out. split; [done|].
  assert (key_of <$> out = (GroupByKey kvs).*1) as ->.
  { apply beam_Map_Ok in Hout. clear -Hout Hkey.
    induction Hout as [|[k vals] e groups out Hg _ IH]; [done|].
    rewrite !fmap_cons. f_equal; [|done]. by apply (Hkey _ vals). }
  split; [done|].
  intros k Hnone [r [Hr Hk]]%Hkeys. by apply (Hnone r).
Qed.

(** C9: for a fixed metadata mapping and an assembler function whose
    result does not depend on the order of the rows of a group, up to the
    equivalence [R] on records, two arrival orders of the same multiset of
    variant rows give the same collection of records up to [R] and up to
    the order of the records; any split of the rows over workers is one
    such arrival order. *)
Theorem variants_to_examples_order_independent {M E} (R : E → E → Prop)
    (sample_to_example_fn : pyval → list row → M → result E)
    (rows1 rows2 : list row) (md : M) :
  (∀ key vals vals', vals ≡ₚ vals' →
     same_outcome R (sample_to_example_fn key vals md)
                    (sample_to_example_fn key vals' md)) →
  rows1 ≡ₚ rows2 →
  same_outcome (same_records R)
    (variants_to_examples rows1 [md] sample_to_example_fn)
    (variants_to_examples rows2 [md] sample_to_example_fn).
Proof.
  intros Hfn Hp. unfold variants_to_examples. fold key_fn.
  pose proof (beam_Map_Permutation key_fn _ _ Hp) as Hkvs.
  destruct (beam_Map key_fn rows1) as [kvs1|], (beam_Map key_fn rows2) as [kvs2|];
    simpl in *; try done.
  set (g := λ '(key, vals), sample_to_example_fn key vals md).
  destruct (GroupByKey_Permutation _ _ Hkvs) as (groups & Hg2 & Hg1).
  apply (same_outcome_trans (Forall2 R) (≡ₚ) _ _ (beam_Map g groups)).
  - intros out1 out' out2 ? ?. by exists out'.
  - apply (beam_Map_Forall2 (λ g g', g.1 = g'.1 ∧ g.2 ≡ₚ g'.2)); [|done].
    intros [k vals] [k' vals'] [Hk Hv]; simpl in *. subst k'. by apply Hfn.
  - apply beam_Map_Permutation. by symmetry.
Qed.
End grouping.

(** ** The steps of [run] *)

Section run_facts.
Context {cols : ColumnNames} {collab : Collaborators}.

Lemma getattr_str_Ok (ns : gmap string pyval) name s :
  getattr ns name ≫= as_str = Ok s ↔ ns !! name = Some (PyStr s).
Proof.
  unfold getattr. destruct (ns !! name) as [[]|]; simpl; split;
    intros; simplify_eq; done.
Qed.

Lemma getattr_Ok (ns : gmap string pyval) name v :
  getattr ns name = Ok v ↔ ns !! name = Some v.
Proof.
  unfold getattr. destruct (ns !! name); split; intros; simplify_eq; done.
Qed.

Lemma open_read_Ok env path text :
  open_read env path = Ok text ↔ files env !! path = Some text.
Proof.
  unfold open_read. destruct (files env !! path); split; intros;
    simplify_eq; done.
Qed.


Lemma bind_Ok {A B} (m : result A) (f : A → result B) b :
  m ≫= f = Ok b ↔ ∃ a, m = Ok a ∧ f a = Ok b.
Proof.
  destruct m as [a|e]; simpl; split.
  - intros Hf. by exists a.
  - by intros (a' & [= <-] & Hf).
  - done.
  - by intros (a' & ? & _).
Qed.

(** [run_setup] succeeds exactly when each of its steps does, and the
    setup then holds what the steps produced. *)
Lemma run_setup_Ok argv env setup :
  run_setup argv env = Ok setup ↔
  ∃ opts output stamp job_stamp mpath mtext mq ipath itext dq bin_size add_hethom,
    view_as_PreprocessOptions argv = Ok opts ∧
    opts !! "output" = Some (PyStr output) ∧
    strftime (now env 0) "%Y%m%d-%H%M%S" = Ok stamp ∧
    strftime (now env 1) "%y%m%d-%H%M%S" = Ok job_stamp ∧
    opts !! "metadata" = Some (PyStr mpath) ∧
    files env !! mpath = Some mtext ∧
    render mtext METADATA_QUERY_REPLACEMENTS = Ok mq ∧
    opts !! "input" = Some (PyStr ipath) ∧
    files env !! ipath = Some itext ∧
    render itext DATA_QUERY_REPLACEMENTS = Ok dq ∧
    opts !! "bin_size" = Some bin_size ∧
    opts !! "add_hethom" = Some add_hethom ∧
    setup =
      {| output_dir := os_path_join output [stamp];
         save_main_session := true;
         autoscaling_algorithm := "THROUGHPUT_BASED";
         staging_location :=
           os_path_join (os_path_join output [stamp]) ["tmp"; "staging"];
         temp_location := os_path_join (os_path_join output [stamp]) ["tmp"];
         job_name := "preprocess-varianteatures-" ++ job_stamp;
         metadata_query := mq;
         data_query := dq;
         sample_to_example_fn :=
           encoder.build_sample_to_example
             metadata_encoder.metadata_to_ancestry_features
             (variant_encoder.build_variants_to_features
                (feature_name_strategy bin_size)
                (variant_encoder.build_variant_to_words add_hethom)) |}.
Proof.
  unfold run_setup. split.
  - intros (opts & Hopts & Hrest)%bind_Ok.
    apply bind_Ok in Hrest as (output & Hout%getattr_str_Ok & Hrest).
    apply bind_Ok in Hrest as (stamp & Hstamp & Hrest).
    apply bind_Ok in Hrest as (job_stamp & Hjob & Hrest).
    apply bind_Ok in Hrest as (mpath & Hmpath%getattr_str_Ok & Hrest).
    apply bind_Ok in Hrest as (mtext & Hmtext%open_read_Ok & Hrest).
    apply bind_Ok in Hrest as (mq & Hmq & Hrest).
    apply bind_Ok in Hrest as (ipath & Hipath%getattr_str_Ok & Hrest).
    apply bind_Ok in Hrest as (itext & Hitext%open_read_Ok & Hrest).
    apply bind_Ok in Hrest as (dq & Hdq & Hrest).
    apply bind_Ok in Hrest as (bin_size & Hbin%getattr_Ok & Hrest).
    apply bind_Ok in Hrest as (add_hethom & Hhet%getattr_Ok & Hrest).
    injection Hrest as <-.
    exists opts, output, stamp, job_stamp, mpath, mtext, mq, ipath, itext, dq,
      bin_size, add_hethom.
    by split_and!.
  - intros (opts & output & stamp & job_stamp & mpath & mtext & mq & ipath &
            itext & dq & bin_size & add_hethom & Hopts & Hout & Hstamp & Hjob &
            Hmpath & Hmtext & Hmq & Hipath & Hitext & Hdq & Hbin & Hhet & ->).
    rewrite Hopts. simpl.
    apply getattr_str_Ok in Hout as ->. simpl. rewrite Hstamp. simpl.
    rewrite Hjob. simpl.
    apply getattr_str_Ok in Hmpath as ->. simpl.
    apply open_read_Ok in Hmtext as ->. simpl. rewrite Hmq. simpl.
    apply getattr_str_Ok in Hipath as ->. simpl.
    apply open_read_Ok in Hitext as ->. simpl. rewrite Hdq. simpl.
    apply getattr_Ok in Hbin as ->. simpl.
    apply getattr_Ok in Hhet as ->. simpl.
    by destruct bin_size.
Qed.
End run_facts.

(** ** The option parser of [PreprocessOptions] *)

Section parser_facts.
Implicit Types (st : gmap string pyval * list string) (args : list cli_arg).

Lemma find_action_spec parser s :
  match find_action parser s with
  | Some a => a ∈ _actions parser ∧ option_string a = s
  | None => ∀ a, a ∈ _actions parser → option_string a ≠ s
  end.
Proof.
  unfold find_action.
  destruct (list_find _ (_actions parser)) as [[i a]|] eqn:Hf; simpl.
  - apply list_find_Some in Hf as (Hi & ? & _). split; [|done].
    by eapply list_elem_of_lookup_2.
  - apply list_find_None in Hf. rewrite Forall_forall in Hf. done.
Qed.

(** The six actions that [_add_argparse_args] registers; [set_defaults]
    has made [True] the default of both zygosity flags. *)
Lemma preprocess_parser_actions :
  _actions preprocess_parser =
  [output_action; input_action; metadata_action; hethom_words_action;
   no_hethom_words_action; bin_size_action].
Proof. reflexivity. Qed.

Lemma preprocess_parser_initial :
  initial_namespace preprocess_parser =
  list_to_map [("output", PyNone); ("input", PyNone); ("metadata", PyNone);
               ("add_hethom", PyBool true); ("bin_size", PyNone)].
Proof. reflexivity. Qed.

Ltac find_cases s :=
  let Hf := fresh "Hf" in
  let a := fresh "a" in
  pose proof (find_action_spec preprocess_parser s) as Hf;
  destruct (find_action preprocess_parser s) as [a|];
  [ destruct Hf as [Hf <-]; rewrite preprocess_parser_actions in Hf;
    repeat (apply elem_of_cons in Hf as [->|Hf]);
    [..|by apply elem_of_nil in Hf]
  | rewrite preprocess_parser_actions in Hf ].

Lemma take_action_steps st arg st' :
  take_action preprocess_parser st arg = Ok st' →
  st'.1 !! "add_hethom" = hethom_step (st.1 !! "add_hethom") arg ∧
  st'.1 !! "bin_size" = bin_size_step (st.1 !! "bin_size") arg.
Proof.
  destruct arg as [s|s v|v]; simpl.
  - find_cases s; simpl; try done; intros [= <-]; simpl.
    + by rewrite lookup_insert_eq, lookup_insert_ne.
    + by rewrite lookup_insert_eq, lookup_insert_ne.
    + rewrite !decide_False; [done|..].
      * apply not_eq_sym, (Hf no_hethom_words_action). set_solver.
      * apply not_eq_sym, (Hf hethom_words_action). set_solver.
  - find_cases s; simpl; try done.
    1-3: intros [= <-]; simpl; by rewrite !lookup_insert_ne.
    + unfold get_value; simpl. destruct (int v) as [x|]; simpl; [|done].
      intros [= <-]; simpl. by rewrite lookup_insert_eq, lookup_insert_ne.
    + intros [= <-]. rewrite decide_False; [done|].
      apply not_eq_sym, (Hf bin_size_action). set_solver.
  - by intros [= <-].
Qed.

Lemma consume_steps args st st' :
  consume preprocess_parser st args = Ok st' →
  st'.1 !! "add_hethom" = foldl hethom_step (st.1 !! "add_hethom") args ∧
  st'.1 !! "bin_size" = foldl bin_size_step (st.1 !! "bin_size") args.
Proof.
  revert st. induction args as [|arg args IH]; intros st; simpl.
  - by intros [= <-].
  - destruct (take_action preprocess_parser st arg) as [st1|] eqn:Hstep;
      simpl; [|done].
    apply take_action_steps in Hstep as [<- <-]. apply IH.
Qed.


(** Only argument errors come out of the parser. *)
Lemma take_action_Raise parser st arg e :
  take_action parser st arg = Raise e → ∃ msg, e = ArgumentError msg.
Proof.
  destruct arg as [s|s v|v]; simpl; [| |done].
  - destruct (find_action parser s) as [a|]; [|done].
    destruct (kind a); intros; simplify_eq; by eexists.
  - destruct (find_action parser s) as [a|]; [|done].
    destruct (kind a); [|intros; simplify_eq; by eexists..].
    unfold get_value. destruct (type_func a) as [convert|]; simpl; [|done].
    destruct (convert v); simpl; intros; simplify_eq. by eexists.
Qed.

Lemma consume_Raise parser args st e :
  consume parser st args = Raise e → ∃ msg, e = ArgumentError msg.
Proof.
  revert st. induction args as [|arg args IH]; intros st; simpl; [done|].
  destruct (take_action parser st arg) as [st1|e1] eqn:Hstep; simpl.
  - apply IH.
  - intros [= <-]. by eapply take_action_Raise.
Qed.

Lemma check_required_Raise actions seen e :
  check_required actions seen = Raise e → ∃ msg, e = ArgumentError msg.
Proof.
  induction actions as [|a actions IH]; simpl; [done|].
  case_match; [|done]. intros [= <-]. by eexists.
Qed.

Lemma parse_known_args_Raise parser args e :
  parse_known_args parser args = Raise e → ∃ msg, e = ArgumentError msg.
Proof.
  unfold parse_known_args.
  destruct (consume parser _ args) as [st|e1] eqn:Hc; simpl.
  - destruct (check_required _ _) as [|e2] eqn:Hr; simpl; [done|].
    intros [= <-]. by eapply check_required_Raise.
  - intros [= <-]. by eapply consume_Raise.
Qed.

Lemma consume_stuck parser args st arg :
  arg ∈ args → (∀ st1, is_Raise (take_action parser st1 arg)) →
  is_Raise (consume parser st args).
Proof.
  intros Hin Hstuck. revert st.
  induction args as [|arg' args IH]; intros st; simpl.
  - by apply elem_of_nil in Hin.
  - apply elem_of_cons in Hin as [<-|Hin].
    + destruct (Hstuck st) as [e ->]. by exists e.
    + destruct (take_action parser st arg'); simpl; [by apply IH|by eexists].
Qed.


(** An attribute that no occurrence of the command line touches keeps
    its value. *)
Lemma foldl_hethom_step_untouched args o :
  Forall (λ arg, arg ≠ Flag "--hethom_words" ∧ arg ≠ Flag "--no_hethom_words") args →
  foldl hethom_step o args = o.
Proof.
  induction 1 as [|arg args [Hy Hn] _ IH]; simpl; [done|].
  rewrite <-IH at 2. f_equal. destruct arg as [s| |]; simpl; try done.
  rewrite !decide_False; [done|congruence..].
Qed.

Lemma foldl_hethom_step_true args :
  Forall (λ arg, arg ≠ Flag "--no_hethom_words") args →
  foldl hethom_step (Some (PyBool true)) args = Some (PyBool true).
Proof.
  induction 1 as [|arg args Hn _ IH]; simpl; [done|].
  rewrite <-IH at 2. f_equal. destruct arg as [s| |]; simpl; try done.
  case_decide; [done|]. rewrite decide_False; [done|congruence].
Qed.

Lemma foldl_hethom_step_false args :
  Forall (λ arg, arg ≠ Flag "--hethom_words") args →
  foldl hethom_step (Some (PyBool false)) args = Some (PyBool false).
Proof.
  induction 1 as [|arg args Hn _ IH]; simpl; [done|].
  rewrite <-IH at 2. f_equal. destruct arg as [s| |]; simpl; try done.
  rewrite decide_False by congruence. by case_decide.
Qed.

Lemma foldl_bin_size_step_untouched args o :
  Forall (λ arg, ∀ v, arg ≠ Option "--bin_size" v) args →
  foldl bin_size_step o args = o.
Proof.
  induction 1 as [|arg args Hn _ IH]; simpl; [done|].
  rewrite <-IH at 2. f_equal. destruct arg as [|s v|]; simpl; try done.
  rewrite decide_False; [done|]. intros ->. by apply (Hn v).
Qed.

Lemma int_Ok s x : int s = Ok x → ∃ z, x = PyInt z.
Proof.
  unfold int. destruct (strip s) as [|c r]; simpl; [done|].
  repeat case_match; intros; simplify_eq; by eexists.
Qed.
End parser_facts.

(** ** The options seen by [run] *)

Section option_claims.
Context {cols : ColumnNames} {collab : Collaborators}.

Lemma view_as_PreprocessOptions_steps argv opts :
  view_as_PreprocessOptions argv = Ok opts →
  opts !! "add_hethom" = foldl hethom_step (Some (PyBool true)) argv ∧
  opts !! "bin_size" = foldl bin_size_step (Some PyNone) argv.
Proof.
  unfold view_as_PreprocessOptions, parse_known_args.
  intros (st & Hst & Hrest)%bind_Ok.
  apply bind_Ok in Hrest as (_ & _ & [= <-]).
  apply consume_steps in Hst. simpl in Hst.
  by rewrite preprocess_parser_initial in Hst.
Qed.

Lemma take_action_bin_size st v :
  take_action preprocess_parser st (Option "--bin_size" v) =
  x ← get_value bin_size_action v; Ok (<["bin_size" := x]> st.1, "--bin_size" :: st.2).
Proof. reflexivity. Qed.

Lemma bin_size_invalid_rejected argv v :
  Option "--bin_size" v ∈ argv → is_Raise (int v) →
  ∃ msg, view_as_PreprocessOptions argv = Raise (ArgumentError msg).
Proof.
  intros Hin [e He].
  destruct (view_as_PreprocessOptions argv) as [opts|e'] eqn:Hv.
  - exfalso. unfold view_as_PreprocessOptions, parse_known_args in Hv.
    apply bind_Ok in Hv as (st & Hst & _).
    destruct (consume_stuck preprocess_parser argv
                (initial_namespace preprocess_parser, []) _ Hin) as [e' He'].
    + intros st1. rewrite take_action_bin_size. unfold get_value. simpl.
      rewrite He. simpl. by eexists.
    + congruence.
  - apply parse_known_args_Raise in Hv as [msg ->]. by exists msg.
Qed.

Lemma foldl_hethom_step_bool args b0 :
  ∃ b, foldl hethom_step (Some (PyBool b0)) args = Some (PyBool b).
Proof.
  revert b0. induction args as [|arg args IH]; intros b0; simpl.
  - by exists b0.
  - destruct arg as [s| |]; simpl; [|apply IH..].
    repeat case_decide; apply IH.
Qed.

(** C5: the zygosity toggle is true by default, [--hethom_words] sets it
    to true and [--no_hethom_words] to false, the last of the two flags
    on the command line deciding; [run] builds the word encoder with
    exactly the resulting boolean. *)
Theorem hethom_words_toggle argv env setup :
  run_setup argv env = Ok setup →
  ∃ (b : bool) name_fn,
    sample_to_example_fn setup =
      encoder.build_sample_to_example
        metadata_encoder.metadata_to_ancestry_features
        (variant_encoder.build_variants_to_features name_fn
           (variant_encoder.build_variant_to_words (PyBool b))) ∧
    view_as_PreprocessOptions argv ≫= (λ opts, getattr opts "add_hethom") =
      Ok (PyBool b) ∧
    (Forall (λ arg, arg ≠ Flag "--hethom_words" ∧ arg ≠ Flag "--no_hethom_words")
       argv → b = true) ∧
    (∀ pre post, argv = (pre ++ Flag "--hethom_words" :: post)%list →
       Forall (λ arg, arg ≠ Flag "--no_hethom_words") post → b = true) ∧
    (∀ pre post, argv = (pre ++ Flag "--no_hethom_words" :: post)%list →
       Forall (λ arg, arg ≠ Flag "--hethom_words") post → b = false).
Proof.
  intros (opts & output & stamp & job_stamp & mpath & mtext & mq & ipath &
          itext & dq & bin_size & add_hethom & Hopts & _ & _ & _ & _ & _ & _ &
          _ & _ & _ & _ & Hhet & ->)%run_setup_Ok.
  destruct (view_as_PreprocessOptions_steps _ _ Hopts) as [Hfold _].
  destruct (foldl_hethom_step_bool argv true) as [b Hb].
  assert (add_hethom = PyBool b) as -> by congruence.
  exists b, (feature_name_strategy bin_size). split_and!.
  - done.
  - rewrite Hopts. simpl. by apply getattr_Ok.
  - intros Hnone. rewrite foldl_hethom_step_untouched in Hb by done. congruence.
  - intros pre post -> Hpost. rewrite foldl_app in Hb. simpl in Hb.
    rewrite foldl_hethom_step_true in Hb by done. congruence.
  - intros pre post -> Hpost. rewrite foldl_app in Hb. simpl in Hb.
    rewrite foldl_hethom_step_false in Hb by done. congruence.
Qed.

(** C4: [run] looks at the parsed [bin_size] only: when it is [None],
    which is the case when the command line has no [--bin_size], the
    feature names come from [variant_to_contig_feature_name]; otherwise
    they come from [build_variant_to_binned_feature_name] applied to
    that very value, the integer given by the last [--bin_size]. *)
Theorem bin_size_selects_strategy argv env setup :
  run_setup argv env = Ok setup →
  ∃ bin_size name_fn words_fn,
    view_as_PreprocessOptions argv ≫= (λ opts, getattr opts "bin_size") =
      Ok bin_size ∧
    sample_to_example_fn setup =
      encoder.build_sample_to_example
        metadata_encoder.metadata_to_ancestry_features
        (variant_encoder.build_variants_to_features name_fn words_fn) ∧
    (bin_size = PyNone →
       name_fn = variant_encoder.variant_to_contig_feature_name) ∧
    (bin_size ≠ PyNone →
       name_fn = variant_encoder.build_variant_to_binned_feature_name bin_size) ∧
    (Forall (λ arg, ∀ v, arg ≠ Option "--bin_size" v) argv → bin_size = PyNone) ∧
    (∀ pre v post, argv = (pre ++ Option "--bin_size" v :: post)%list →
       Forall (λ arg, ∀ v', arg ≠ Option "--bin_size" v') post →
       ∃ z, int v = Ok (PyInt z) ∧ bin_size = PyInt z).
Proof.
  intros (opts & output & stamp & job_stamp & mpath & mtext & mq & ipath &
          itext & dq & bin_size & add_hethom & Hopts & _ & _ & _ & _ & _ & _ &
          _ & _ & _ & Hbin & _ & ->)%run_setup_Ok.
  destruct (view_as_PreprocessOptions_steps _ _ Hopts) as [_ Hfold].
  exists bin_size, (feature_name_strategy bin_size),
    (variant_encoder.build_variant_to_words add_hethom). split_and!.
  - rewrite Hopts. simpl. by apply getattr_Ok.
  - done.
  - by intros ->.
  - by destruct bin_size.
  - intros Hnone. rewrite foldl_bin_size_step_untouched in Hfold by done.
    congruence.
  - intros pre v post -> Hpost. rewrite foldl_app in Hfold. simpl in Hfold.
    rewrite foldl_bin_size_step_untouched in Hfold by done.
    destruct (int v) as [x|e] eqn:Hv.
    + destruct (int_Ok _ _ Hv) as [z ->]. exists z. split; [done|congruence].
    + destruct (bin_size_invalid_rejected (pre ++ Option "--bin_size" v :: post)%list v)
        as [msg Hmsg]; [set_solver|by eexists|congruence].
Qed.
End option_claims.

Section run_claims.
Context {cols : ColumnNames} {collab : Collaborators}.




End run_claims.

(** ** Paths and time stamps *)

Section paths.
Lemma append_String c (s t : string) : String c s ++ t = String c (s ++ t).
Proof. reflexivity. Qed.

Lemma append_nil (t : string) : "" ++ t = t.
Proof. reflexivity. Qed.

Lemma string_app_assoc (s t u : string) : (s ++ t) ++ u = s ++ t ++ u.
Proof.
  induction s as [|c s IH]; [done|]. rewrite !append_String. by rewrite IH.
Qed.

Lemma endswith_slash_app s t : t ≠ "" → endswith_slash (s ++ t) = endswith_slash t.
Proof.
  intros Ht. induction s as [|c s IH]; [done|].
  rewrite append_String. simpl.
  destruct (s ++ t) eqn:Hst; [|done].
  destruct s; [by rewrite append_nil in Hst|by rewrite append_String in Hst].
Qed.

Lemma digit_char_inj a b :
  (0 ≤ a < 10)%Z → (0 ≤ b < 10)%Z → digit_char a = digit_char b → a = b.
Proof.
  intros Ha Hb Heq. apply (f_equal nat_of_ascii) in Heq.
  unfold digit_char in Heq. rewrite !nat_ascii_embedding in Heq by lia. lia.
Qed.

Lemma digit_char_not_slash a : (0 ≤ a < 10)%Z → Ascii.eqb (digit_char a) "/" = false.
Proof.
  intros Ha. apply Ascii.eqb_neq. intros Heq.
  apply (f_equal nat_of_ascii) in Heq.
  unfold digit_char in Heq. rewrite nat_ascii_embedding in Heq by lia.
  change (nat_of_ascii "/") with 47 in Heq. lia.
Qed.

Lemma stamp_shape dt :
  expand_format dt "%Y%m%d-%H%M%S" =
  pad4 (year dt) ++ pad2 (month dt) ++ pad2 (day dt) ++ "-" ++
  pad2 (hour dt) ++ pad2 (minute dt) ++ pad2 (second dt).
Proof. reflexivity. Qed.

Lemma pad2_inj a b : (0 ≤ a < 100)%Z → (0 ≤ b < 100)%Z → ∀ s t, pad2 a ++ s = pad2 b ++ t → a = b ∧ s = t.
Proof.
  intros Ha Hb s t. unfold pad2. rewrite !append_String, !append_nil.
  intros [= H1 H2 ->].
  apply digit_char_inj in H1; [|by apply Z.mod_pos_bound..].
  apply digit_char_inj in H2; [|by apply Z.mod_pos_bound..].
  split; [|done]. Z.div_mod_to_equations. lia.
Qed.
Lemma pad4_inj a b : (0 ≤ a < 10000)%Z → (0 ≤ b < 10000)%Z → ∀ s t, pad4 a ++ s = pad4 b ++ t → a = b ∧ s = t.
Proof.
  intros Ha Hb s t. unfold pad4, pad2. rewrite !append_String, !append_nil.
  intros [= H1 H2 H3 H4 ->].
  apply digit_char_inj in H1; [|by apply Z.mod_pos_bound..].
  apply digit_char_inj in H2; [|by apply Z.mod_pos_bound..].
  apply digit_char_inj in H3; [|by apply Z.mod_pos_bound..].
  apply digit_char_inj in H4; [|by apply Z.mod_pos_bound..].
  split; [|done]. Z.div_mod_to_equations. lia.
Qed.

Lemma strftime_Ok dt fmt stamp :
  strftime dt fmt = Ok stamp → stamp = expand_format dt fmt.
Proof. unfold strftime. case_bool_decide; [done|]. by intros [= <-]. Qed.

(** The directory stamp determines the reading of the clock to the
    second, whatever follows it in a path. *)
Lemma stamp_inj dt1 dt2 s t :
  datetime_valid dt1 → datetime_valid dt2 →
  expand_format dt1 "%Y%m%d-%H%M%S" ++ s = expand_format dt2 "%Y%m%d-%H%M%S" ++ t →
  to_the_second dt1 = to_the_second dt2.
Proof.
  intros (Hy1 & Hm1 & Hd1 & HH1 & HM1 & HS1) (Hy2 & Hm2 & Hd2 & HH2 & HM2 & HS2).
  rewrite !stamp_shape, !string_app_assoc.
  intros [Ey Heq]%pad4_inj; [|lia..].
  apply pad2_inj in Heq as [Em Heq]; [|lia..].
  apply pad2_inj in Heq as [Ed Heq]; [|lia..].
  apply String.app_inj in Heq.
  apply pad2_inj in Heq as [EH Heq]; [|lia..].
  apply pad2_inj in Heq as [EM Heq]; [|lia..].
  apply pad2_inj in Heq as [ES Heq]; [|lia..].
  unfold to_the_second. congruence.
Qed.

Lemma stamp_start dt :
  ∃ d rest, (0 ≤ d < 10)%Z ∧
    expand_format dt "%Y%m%d-%H%M%S" = String (digit_char d) rest.
Proof.
  eexists _, _. split; [|rewrite stamp_shape; unfold pad4; by rewrite append_String].
  by apply Z.mod_pos_bound.
Qed.

Lemma stamp_end dt : endswith_slash (expand_format dt "%Y%m%d-%H%M%S") = false.
Proof.
  rewrite stamp_shape. rewrite !endswith_slash_app by done.
  apply digit_char_not_slash. by apply Z.mod_pos_bound.
Qed.

Lemma join_component_below path b :
  startswith_slash b = false → path ≠ "" → endswith_slash path = false →
  join_component path b = path ++ "/" ++ b.
Proof.
  intros Hb Hp He. unfold join_component. rewrite Hb, He.
  by rewrite bool_decide_false.
Qed.
End paths.

Section fresh.
Context {cols : ColumnNames} {collab : Collaborators}.

Lemma run_pipeline_prefix setup env sink :
  run_pipeline setup env = Ok sink →
  file_path_prefix sink = os_path_join (output_dir setup) ["examples"].
Proof.
  unfold run_pipeline.
  intros (mrows & _ & Hrest)%bind_Ok.
  apply bind_Ok in Hrest as (rows & _ & Hrest).
  apply bind_Ok in Hrest as (examples & _ & [= <-]). done.
Qed.

Lemma nonempty_app_r (s t : string) : t ≠ "" → s ++ t ≠ "".
Proof. destruct s, t; done. Qed.

Lemma os_path_join_one a b : os_path_join a [b] = join_component a b.
Proof. reflexivity. Qed.

Lemma os_path_join_two a b c :
  os_path_join a [b; c] = join_component (join_component a b) c.
Proof. reflexivity. Qed.

Lemma output_dir_shape output stamp :
  stamp ≠ "" → startswith_slash stamp = false → endswith_slash stamp = false →
  ∃ sep, (sep = "" ∨ sep = "/") ∧
    (sep = if bool_decide (output = "") || endswith_slash output then "" else "/") ∧
    os_path_join output [stamp] = output ++ sep ++ stamp ∧
    os_path_join output [stamp] ≠ "" ∧
    endswith_slash (os_path_join output [stamp]) = false.
Proof.
  intros Hne Hstart Hend.
  eexists. split; [|split; [reflexivity|]].
  { destruct (_ || _); auto. }
  rewrite os_path_join_one. unfold join_component. rewrite Hstart.
  destruct (bool_decide (output = "") || endswith_slash output).
  - rewrite append_nil. split_and!; [done|by apply nonempty_app_r|].
    by rewrite endswith_slash_app.
  - split_and!; [done|by apply nonempty_app_r, nonempty_app_r|].
    rewrite endswith_slash_app by by apply nonempty_app_r.
    by rewrite endswith_slash_app.
Qed.

Lemma stamp_facts dt :
  let stamp := expand_format dt "%Y%m%d-%H%M%S" in
  stamp ≠ "" ∧ startswith_slash stamp = false ∧ endswith_slash stamp = false.
Proof.
  intros stamp. destruct (stamp_start dt) as (d & rest & Hd & Hstamp).
  split_and!.
  - unfold stamp. by rewrite Hstamp.
  - unfold stamp. rewrite Hstamp. by apply digit_char_not_slash.
  - apply stamp_end.
Qed.

(** C10: [run] puts everything it writes under the directory that
    joins the [--output] path with the reading of the clock printed as
    [%Y%m%d-%H%M%S]: the temporary and staging locations and the prefix
    of the record files all extend that directory, and for two runs of
    the same command line whose clock readings differ to the second, no
    path under the directory of one is a path under the directory of the
    other. *)
Theorem runs_write_apart argv env1 env2 setup1 setup2 :
  run_setup argv env1 = Ok setup1 → run_setup argv env2 = Ok setup2 →
  datetime_valid (now env1 0) → datetime_valid (now env2 0) →
  to_the_second (now env1 0) ≠ to_the_second (now env2 0) →
  (∃ output stamp,
     view_as_PreprocessOptions argv ≫= (λ opts, getattr opts "output") =
       Ok (PyStr output) ∧
     strftime (now env1 0) "%Y%m%d-%H%M%S" = Ok stamp ∧
     output_dir setup1 = os_path_join output [stamp] ∧
     (output_dir setup1 = output ++ stamp ∨
      output_dir setup1 = output ++ "/" ++ stamp)) ∧
  temp_location setup1 = output_dir setup1 ++ "/tmp" ∧
  staging_location setup1 = output_dir setup1 ++ "/tmp/staging" ∧
  (∀ sink, run_pipeline setup1 env1 = Ok sink →
     file_path_prefix sink = output_dir setup1 ++ "/examples") ∧
  (∀ x y, output_dir setup1 ++ x ≠ output_dir setup2 ++ y).
Proof.
  intros (opts & output & stamp1 & job_stamp1 & mpath1 & mtext1 & mq1 & ipath1 &
          itext1 & dq1 & bin_size1 & add_hethom1 & Hopts & Hout & Hstamp1 & _ &
          _ & _ & _ & _ & _ & _ & _ & _ & ->)%run_setup_Ok.
  intros (opts2 & output2 & stamp2 & job_stamp2 & mpath2 & mtext2 & mq2 & ipath2 &
          itext2 & dq2 & bin_size2 & add_hethom2 & Hopts2 & Hout2 & Hstamp2 & _ &
          _ & _ & _ & _ & _ & _ & _ & _ & ->)%run_setup_Ok.
  intros Hvalid1 Hvalid2 Hdiff.
  cbn [output_dir temp_location staging_location].
  assert (opts2 = opts) as -> by congruence.
  assert (output2 = output) as -> by congruence.
  pose proof (strftime_Ok _ _ _ Hstamp1) as E1.
  pose proof (strftime_Ok _ _ _ Hstamp2) as E2.
  destruct (stamp_facts (now env1 0)) as (Hn1 & Hs1 & He1). rewrite <-E1 in Hn1, Hs1, He1.
  destruct (stamp_facts (now env2 0)) as (Hn2 & Hs2 & He2). rewrite <-E2 in Hn2, Hs2, He2.
  destruct (output_dir_shape output stamp1 Hn1 Hs1 He1)
    as (sep & Hsep & Hsepdef & Hdir1 & Hne1 & Hend1).
  destruct (output_dir_shape output stamp2 Hn2 Hs2 He2)
    as (sep2 & _ & Hsepdef2 & Hdir2 & _ & _).
  assert (sep2 = sep) as -> by congruence.
  split_and!.
  - exists output, stamp1. split_and!; [|done|done|].
    + rewrite Hopts. by apply getattr_Ok.
    + rewrite Hdir1. destruct Hsep as [-> | ->]; [left|right]; done.
  - rewrite (os_path_join_one _ "tmp"). by apply join_component_below.
  - rewrite os_path_join_two.
    rewrite (join_component_below _ "tmp") by done.
    rewrite join_component_below; [|done|by apply nonempty_app_r|].
    + by rewrite string_app_assoc.
    + by rewrite endswith_slash_app.
  - intros sink ->%run_pipeline_prefix. cbn [output_dir].
    rewrite (os_path_join_one _ "examples"). by apply join_component_below.
  - intros x y. rewrite Hdir1, Hdir2, !string_app_assoc.
    intros Heq%String.app_inj%String.app_inj. apply Hdiff.
    rewrite E1, E2 in Heq. by eapply stamp_inj.
Qed.
End fresh.

(** * Further properties *)

(** ** Groups as a partition of the rows *)

Section partition.
Context `{EqDecision K} {V : Type}.
Implicit Types (kvs : list (K * V)) (ks : list K).

Lemma filter_none {A} (P : A → Prop) `{∀ x, Decision (P x)} (l : list A) :
  (∀ x, x ∈ l → ¬ P x) → filter P l = [].
Proof.
  induction l as [|x l IH]; intros Hall; [done|].
  rewrite filter_cons_False by (apply Hall; left).
  apply IH. intros y Hy. apply Hall. by right.
Qed.

Lemma filter_all {A} (P : A → Prop) `{∀ x, Decision (P x)} (l : list A) :
  (∀ x, x ∈ l → P x) → filter P l = l.
Proof.
  induction l as [|x l IH]; intros Hall; [done|].
  rewrite filter_cons_True by (apply Hall; left).
  f_equal. apply IH. intros y Hy. apply Hall. by right.
Qed.

Lemma filter_key_split k ks kvs :
  k ∉ ks →
  filter (λ kv, kv.1 ∈ k :: ks) kvs ≡ₚ
  filter (λ kv, kv.1 = k) kvs ++ filter (λ kv, kv.1 ∈ ks) kvs.
Proof.
  intros Hk. induction kvs as [|kv kvs IH]; [done|].
  destruct (decide (kv.1 = k)) as [Heq|Hne].
  - rewrite (filter_cons_True (λ kv, kv.1 ∈ k :: ks)) by (rewrite Heq; left).
    rewrite (filter_cons_True (λ kv, kv.1 = k)) by done.
    rewrite (filter_cons_False (λ kv, kv.1 ∈ ks)) by by rewrite Heq.
    simpl. by f_equiv.
  - rewrite (filter_cons_False (λ kv, kv.1 = k)) by done.
    destruct (decide (kv.1 ∈ ks)) as [Hin|Hnin].
    + rewrite (filter_cons_True (λ kv, kv.1 ∈ k :: ks)) by by right.
      rewrite (filter_cons_True (λ kv, kv.1 ∈ ks)) by done.
      rewrite IH. apply Permutation_middle.
    + rewrite (filter_cons_False (λ kv, kv.1 ∈ k :: ks)).
      * by rewrite (filter_cons_False (λ kv, kv.1 ∈ ks)).
      * intros [?|?]%elem_of_cons; done.
Qed.

Lemma values_of_keys_partition ks kvs :
  NoDup ks →
  mjoin ((λ k, values_of k kvs) <$> ks) ≡ₚ (filter (λ kv, kv.1 ∈ ks) kvs).*2.
Proof.
  induction 1 as [|k ks Hk _ IH].
  - rewrite filter_none; [done|]. intros kv _. apply not_elem_of_nil.
  - rewrite fmap_cons. simpl. rewrite IH, filter_key_split by done.
    by rewrite fmap_app.
Qed.

(** Every value of the input is in exactly one group. *)
Lemma GroupByKey_partition kvs : mjoin (GroupByKey kvs).*2 ≡ₚ kvs.*2.
Proof.
  unfold GroupByKey. rewrite <-list_fmap_compose.
  change (snd ∘ (λ k, (k, values_of k kvs))) with (λ k, values_of k kvs).
  rewrite values_of_keys_partition by apply NoDup_remove_dups.
  rewrite filter_all; [done|].
  intros kv Hkv. apply elem_of_remove_dups, list_elem_of_fmap. by exists kv.
Qed.

(** No group is empty. *)
Lemma GroupByKey_nonempty kvs : Forall (λ g, g.2 ≠ []) (GroupByKey kvs).
Proof.
  apply Forall_forall. intros [k vals] Hin.
  pose proof (GroupByKey_elem_of _ _ _ Hin) as ->.
  assert (k ∈ (GroupByKey kvs).*1) as Hk.
  { apply list_elem_of_fmap. by exists (k, values_of k kvs). }
  apply GroupByKey_elem_of_keys in Hk as [v Hv].
  simpl. unfold values_of. intros Hnil.
  apply fmap_nil_inv in Hnil.
  by apply (filter_nil_not_elem_of _ _ (k, v)) in Hnil.
Qed.
End partition.

Section grouping_more.
Context {cols : ColumnNames}.

(** X1: the groups handed to the assembler are a partition of the variant
    rows: put together, the rows of the groups are the input rows, each as
    often as it arrived, and no group is empty. *)
Theorem rows_partitioned_into_groups (input_data : list row) :
  Forall (λ r, is_Some (r !! KEY_COLUMN)) input_data →
  ∃ groups : list (pyval * list row),
    (∀ M E (md : M) (sample_to_example_fn : pyval → list row → M → result E),
       variants_to_examples input_data [md] sample_to_example_fn =
       beam_Map (λ '(key, vals), sample_to_example_fn key vals md) groups) ∧
    mjoin groups.*2 ≡ₚ input_data ∧
    Forall (λ g, g.2 ≠ []) groups.
Proof.
  intros [kvs Hkvs]%bucket_variants_total.
  exists (GroupByKey kvs). split_and!.
  - intros M E md fn. unfold variants_to_examples.
    fold key_fn. by rewrite Hkvs.
  - rewrite GroupByKey_partition. by apply bucket_variants_Ok in Hkvs as [-> _].
  - apply GroupByKey_nonempty.
Qed.

(** X2: an exception of the assembler function for the group of any one
    sample key fails the whole transform; no output is returned for the
    other samples. *)
Theorem assembler_error_propagates {M E}
    (sample_to_example_fn : pyval → list row → M → result E)
    (input_data : list row) (md : M) (r : row) (k : pyval) :
  Forall (λ r, is_Some (r !! KEY_COLUMN)) input_data →
  r ∈ input_data → r !! KEY_COLUMN = Some k →
  is_Raise (sample_to_example_fn k
              (filter (λ r, r !! KEY_COLUMN = Some k) input_data) md) →
  is_Raise (variants_to_examples input_data [md] sample_to_example_fn).
Proof.
  intros Hkeyed Hr Hk Hfail.
  destruct (variants_to_examples_groups (M:=M) input_data Hkeyed)
    as (groups & _ & Hkeys & Hvals & Hrun).
  rewrite Hrun. apply beam_Map_Exists_Raise, Exists_exists.
  assert (k ∈ groups.*1) as Hin by (apply Hkeys; by exists r).
  apply list_elem_of_fmap in Hin as ([k' vals] & -> & Hin).
  exists (k', vals). split; [done|]. simpl in *.
  by rewrite (Hvals _ _ Hin).
Qed.

End grouping_more.

Section pipeline_more.
Context {cols : ColumnNames} {collab : Collaborators}.

End pipeline_more.

(** ** The accepted command lines *)

Section parser_more.
Implicit Types (st : gmap string pyval * list string) (args : list cli_arg).

Ltac find_cases' s :=
  let Hf := fresh "Hf" in
  let a := fresh "a" in
  pose proof (find_action_spec preprocess_parser s) as Hf;
  destruct (find_action preprocess_parser s) as [a|];
  [ destruct Hf as [Hf <-]; rewrite preprocess_parser_actions in Hf;
    repeat (apply elem_of_cons in Hf as [->|Hf]);
    [..|by apply elem_of_nil in Hf]
  | rewrite preprocess_parser_actions in Hf ].

Lemma unknown_option_string s :
  (∀ a, a ∈ [output_action; input_action; metadata_action; hethom_words_action;
             no_hethom_words_action; bin_size_action] → option_string a ≠ s) →
  s ∉ ["--output"; "--input"; "--metadata"; "--hethom_words";
       "--no_hethom_words"; "--bin_size"].
Proof.
  intros Hf Hin.
  repeat (apply elem_of_cons in Hin as [->|Hin]);
    [eapply (Hf output_action)|eapply (Hf input_action)
    |eapply (Hf metadata_action)|eapply (Hf hethom_words_action)
    |eapply (Hf no_hethom_words_action)|eapply (Hf bin_size_action)|];
    try reflexivity; try (by apply elem_of_nil in Hin); set_solver.
Qed.

(** One occurrence, in full: whether it is accepted, what it records as
    seen, and what it does to the three path attributes. *)
Lemma take_action_full st arg :
  match take_action preprocess_parser st arg with
  | Ok st' =>
      acceptable arg = true ∧
      st'.2 = ((if recognized arg
                then from_option (λ s, [s]) [] (occurrence_name arg)
                else []) ++ st.2)%list ∧
      st'.1 !! "output" = store_step "--output" (st.1 !! "output") arg ∧
      st'.1 !! "input" = store_step "--input" (st.1 !! "input") arg ∧
      st'.1 !! "metadata" = store_step "--metadata" (st.1 !! "metadata") arg
  | Raise _ => acceptable arg = false
  end.
Proof.
  destruct arg as [s|s v|v]; simpl.
  - find_cases' s; simpl; try done.
    + split_and!; try done; by rewrite lookup_insert_ne.
    + split_and!; try done; by rewrite lookup_insert_ne.
    + apply unknown_option_string in Hf.
      unfold recognized, occurrence_name. rewrite (bool_decide_false _ Hf).
      split_and!; try done.
      apply negb_true_iff, bool_decide_eq_false. set_solver.
  - find_cases' s; simpl; try done.
    + split_and!; try done;
        [by rewrite lookup_insert_eq|by rewrite lookup_insert_ne..].
    + split_and!; try done;
        [by rewrite lookup_insert_ne|by rewrite lookup_insert_eq
        |by rewrite lookup_insert_ne].
    + split_and!; try done;
        [by rewrite lookup_insert_ne..|by rewrite lookup_insert_eq].
    + unfold get_value. simpl. destruct (int v) as [x|]; simpl; [|done].
      split_and!; try done; by rewrite lookup_insert_ne.
    + apply unknown_option_string in Hf.
      unfold recognized, occurrence_name. rewrite (bool_decide_false _ Hf).
      assert (s ≠ "--bin_size") by set_solver.
      assert (s ≠ "--output") by set_solver.
      assert (s ≠ "--input") by set_solver.
      assert (s ≠ "--metadata") by set_solver.
      rewrite !decide_False by done. split_and!; try done.
      apply negb_true_iff, bool_decide_eq_false. set_solver.
  - done.
Qed.
End parser_more.

Section parser_more2.
Implicit Types (st : gmap string pyval * list string) (args : list cli_arg).

Lemma consume_full args st :
  match consume preprocess_parser st args with
  | Ok st' =>
      Forall (λ arg, acceptable arg = true) args ∧
      (∀ s, s ∈ st'.2 ↔
            s ∈ st.2 ∨ ∃ arg, arg ∈ args ∧ recognized arg = true ∧
                              occurrence_name arg = Some s) ∧
      st'.1 !! "output" = foldl (store_step "--output") (st.1 !! "output") args ∧
      st'.1 !! "input" = foldl (store_step "--input") (st.1 !! "input") args ∧
      st'.1 !! "metadata" =
        foldl (store_step "--metadata") (st.1 !! "metadata") args
  | Raise _ => Exists (λ arg, acceptable arg = false) args
  end.
Proof.
  revert st. induction args as [|arg args IH]; intros st; simpl.
  - split_and!; try done. intros s. split; [by left|].
    intros [?|(arg & []%elem_of_nil & _)]. done.
  - pose proof (take_action_full st arg) as Hstep.
    destruct (take_action preprocess_parser st arg) as [st1|e]; simpl.
    + destruct Hstep as (Hacc & Hseen & Hout & Hin & Hmeta).
      specialize (IH st1).
      destruct (consume preprocess_parser st1 args) as [st'|e'].
      * destruct IH as (Hall & Hseen' & Hout' & Hin' & Hmeta').
        split_and!.
        -- by constructor.
        -- intros s. rewrite Hseen', Hseen. split.
           ++ intros [[Hs|Hs]%elem_of_app|(arg' & ? & ? & ?)].
              ** right. exists arg. split; [left|].
                 destruct (recognized arg); [|by apply elem_of_nil in Hs].
                 destruct (occurrence_name arg) as [s'|]; simpl in Hs;
                   [|by apply elem_of_nil in Hs].
                 apply list_elem_of_singleton in Hs as ->. done.
              ** by left.
              ** right. exists arg'. split; [by right|done].
           ++ intros [Hs|(arg' & [->|Hmem]%elem_of_cons & Hrec & Hname)].
              ** left. apply elem_of_app. by right.
              ** left. apply elem_of_app. left. rewrite Hrec, Hname. simpl.
                 by apply list_elem_of_singleton.
              ** right. by exists arg'.
        -- by rewrite Hout', Hout.
        -- by rewrite Hin', Hin.
        -- by rewrite Hmeta', Hmeta.
      * by right.
    + by left.
Qed.



Lemma foldl_store_step_untouched name args o :
  Forall (λ arg, ∀ v, arg ≠ Option name v) args →
  foldl (store_step name) o args = o.
Proof.
  induction 1 as [|arg args Hn _ IH]; simpl; [done|].
  rewrite <-IH at 2. f_equal. destruct arg as [|s v|]; simpl; try done.
  rewrite decide_False; [done|]. intros ->. by apply (Hn v).
Qed.

End parser_more2.

Section options_more.
Context {cols : ColumnNames} {collab : Collaborators}.



Lemma view_as_PreprocessOptions_paths argv opts :
  view_as_PreprocessOptions argv = Ok opts →
  opts !! "output" = foldl (store_step "--output") (Some PyNone) argv ∧
  opts !! "input" = foldl (store_step "--input") (Some PyNone) argv ∧
  opts !! "metadata" = foldl (store_step "--metadata") (Some PyNone) argv.
Proof.
  unfold view_as_PreprocessOptions, parse_known_args.
  intros (st & Hst & Hrest)%bind_Ok.
  apply bind_Ok in Hrest as (_ & _ & [= <-]).
  pose proof (consume_full argv (initial_namespace preprocess_parser, [])) as Hc.
  rewrite Hst in Hc. destruct Hc as (_ & _ & Ho & Hi & Hm). simpl in *.
  by rewrite preprocess_parser_initial in Ho, Hi, Hm.
Qed.

(** X5: when [--output], [--metadata] or [--input] is given more than
    once, [run] uses the last one: for the directory it writes under, and
    for the template file it renders into the metadata query or the data
    query. *)
Theorem last_path_option_wins argv env setup :
  run_setup argv env = Ok setup →
  (∀ pre v post, argv = (pre ++ Option "--output" v :: post)%list →
     Forall (λ arg, ∀ v', arg ≠ Option "--output" v') post →
     ∃ stamp, strftime (now env 0) "%Y%m%d-%H%M%S" = Ok stamp ∧
              output_dir setup = os_path_join v [stamp]) ∧
  (∀ pre v post, argv = (pre ++ Option "--metadata" v :: post)%list →
     Forall (λ arg, ∀ v', arg ≠ Option "--metadata" v') post →
     ∃ text, files env !! v = Some text ∧
             render text METADATA_QUERY_REPLACEMENTS = Ok (metadata_query setup)) ∧
  (∀ pre v post, argv = (pre ++ Option "--input" v :: post)%list →
     Forall (λ arg, ∀ v', arg ≠ Option "--input" v') post →
     ∃ text, files env !! v = Some text ∧
             render text DATA_QUERY_REPLACEMENTS = Ok (data_query setup)).
Proof.
  intros (opts & output & stamp & job_stamp & mpath & mtext & mq & ipath &
          itext & dq & bin_size & add_hethom & Hopts & Hout & Hstamp & _ &
          Hmpath & Hmtext & Hmq & Hipath & Hitext & Hdq & _ & _ & ->)%run_setup_Ok.
  destruct (view_as_PreprocessOptions_paths _ _ Hopts) as (Ho & Hi & Hm).
  split_and!.
  - intros pre v post -> Hpost. rewrite foldl_app in Ho. simpl in Ho.
    rewrite foldl_store_step_untouched in Ho by done.
    exists stamp. split; [done|]. simpl. congruence.
  - intros pre v post -> Hpost. rewrite foldl_app in Hm. simpl in Hm.
    rewrite foldl_store_step_untouched in Hm by done.
    exists mtext. simpl. split; [congruence|done].
  - intros pre v post -> Hpost. rewrite foldl_app in Hi. simpl in Hi.
    rewrite foldl_store_step_untouched in Hi by done.
    exists itext. simpl. split; [congruence|done].
Qed.
End options_more.

(** ** The claims on the sample instance

    Each theorem above that has a hypothesis is applied here to the rows,
    the command line and the environment of [Sample]. *)

Example sample_setup_contig :
  @run_setup Sample.columns Sample.collaborators Sample.argv
    (Sample.environment 3 Sample.variant_rows) =
  Ok (Sample.setup "03" PyNone (PyBool true)).
Proof. vm_compute. reflexivity. Qed.

Example sample_run :
  @run Sample.columns Sample.collaborators Sample.argv
    (Sample.environment 3 Sample.variant_rows) =
  Ok {| file_path_prefix := "gs://bucket/out/20170309-140503/examples";
        compression_type := GZIP;
        file_name_suffix := ".tfrecord.gz";
        records := ["S2"; "S1"] |}.
Proof. vm_compute. reflexivity. Qed.

Example sample_run_missing_key :
  @run Sample.columns Sample.collaborators Sample.argv
    (Sample.environment 3 Sample.variant_rows_missing_key) =
  Raise (KeyError "key").
Proof. vm_compute. reflexivity. Qed.

Example sample_run_missing_option :
  @run Sample.columns Sample.collaborators [Option "--output" "out"]
    (Sample.environment 3 Sample.variant_rows) =
  Raise (ArgumentError "argument --input is required").
Proof. vm_compute. reflexivity. Qed.

Example sample_groups_example :
  GroupByKey [(PyStr "S1", 1%Z); (PyStr "S2", 2%Z); (PyStr "S1", 3%Z)] =
  [(PyStr "S2", [2%Z]); (PyStr "S1", [1%Z; 3%Z])].
Proof. vm_compute. reflexivity. Qed.

Example sample_stamps :
  strftime (Sample.clock 3) "%Y%m%d-%H%M%S" = Ok "20170309-140503" ∧
  strftime (Sample.clock 3) "%y%m%d-%H%M%S" = Ok "170309-140503".
Proof. split; vm_compute; reflexivity. Qed.

Example sample_joins :
  os_path_join "a" ["b"; "c"] = "a/b/c" ∧ os_path_join "a/" ["b"] = "a/b" ∧
  os_path_join "a" ["/b"; "c"] = "/b/c" ∧ os_path_join "" ["b"] = "b".
Proof. repeat split; vm_compute; reflexivity. Qed.

Example sample_ints :
  int " -5 " = Ok (PyInt (-5)) ∧ int "+12" = Ok (PyInt 12) ∧
  int "007" = Ok (PyInt 7) ∧ is_Raise (int "1 2") ∧ is_Raise (int "").
Proof. repeat split; try (vm_compute; reflexivity); eexists; vm_compute; reflexivity. Qed.


Lemma missing_key_aborts_witness :
  (∀ M E (md : M) (sample_to_example_fn : pyval → list row → M → result E),
     @variants_to_examples Sample.columns _ _ Sample.variant_rows_missing_key
       [md] sample_to_example_fn = Raise (KeyError "key")) ∧
  @run_pipeline Sample.columns Sample.collaborators
    (Sample.setup "03" PyNone (PyBool true))
    (Sample.environment 3 Sample.variant_rows_missing_key) =
  Raise (KeyError "key").
Proof.
  destruct (@missing_key_aborts Sample.columns Sample.variant_rows_missing_key)
    as [Hv Hr].
  - right. left. reflexivity.
  - split; [exact Hv|].
    apply (Hr Sample.collaborators _ _ Sample.metadata_rows); reflexivity.
Defined.

Lemma output_keys_are_variant_keys_witness :
  ∃ out,
    @variants_to_examples Sample.columns _ _ Sample.variant_rows
      [Sample.metadata_dict]
      (Sample.assemble (sample_to_example_fn (Sample.setup "03" PyNone (PyBool true)))) =
      Ok out ∧
    (∀ k, k ∈ Sample.sample_key <$> out ↔
          ∃ r, r ∈ Sample.variant_rows ∧ r !! "key" = Some k) ∧
    (∀ k, (∀ r, r ∈ Sample.variant_rows → r !! "key" ≠ Some k) →
          k ∉ Sample.sample_key <$> out).
Proof.
  apply (@output_keys_are_variant_keys Sample.columns _ _
           (Sample.assemble (sample_to_example_fn (Sample.setup "03" PyNone (PyBool true))))
           Sample.sample_key).
  - intros key vals e [= <-]. reflexivity.
  - intros key vals. eexists. reflexivity.
  - repeat constructor; by eexists.
Defined.

Lemma variants_to_examples_order_independent_witness :
  same_outcome (same_records Sample.same_sample)
    (@variants_to_examples Sample.columns _ _ Sample.variant_rows
       [Sample.metadata_dict]
       (Sample.assemble (sample_to_example_fn (Sample.setup "03" PyNone (PyBool true)))))
    (@variants_to_examples Sample.columns _ _ Sample.variant_rows_swapped
       [Sample.metadata_dict]
       (Sample.assemble (sample_to_example_fn (Sample.setup "03" PyNone (PyBool true))))).
Proof.
  apply (@variants_to_examples_order_independent Sample.columns).
  - intros key vals vals' Hp. repeat split. exact Hp.
  - apply perm_swap.
Defined.


Lemma hethom_words_toggle_witness :
  ∃ (b : bool) name_fn,
    sample_to_example_fn (Sample.setup "03" PyNone (PyBool false)) =
      encoder.build_sample_to_example
        metadata_encoder.metadata_to_ancestry_features
        (variant_encoder.build_variants_to_features name_fn
           (variant_encoder.build_variant_to_words (PyBool b))) ∧
    b = false.
Proof.
  destruct (@hethom_words_toggle Sample.columns Sample.collaborators
              (Sample.argv ++ [Flag "--hethom_words"; Flag "--no_hethom_words"])%list
              (Sample.environment 3 Sample.variant_rows)
              (Sample.setup "03" PyNone (PyBool false)))
    as (b & name_fn & Hfn & _ & _ & _ & Hoff).
  - vm_compute. reflexivity.
  - exists b, name_fn. split; [exact Hfn|].
    apply (Hoff (Sample.argv ++ [Flag "--hethom_words"])%list []).
    + reflexivity.
    + constructor.
Defined.

Lemma bin_size_selects_strategy_witness :
  ∃ bin_size name_fn words_fn,
    sample_to_example_fn (Sample.setup "03" (PyInt 50) (PyBool true)) =
      encoder.build_sample_to_example
        metadata_encoder.metadata_to_ancestry_features
        (variant_encoder.build_variants_to_features name_fn words_fn) ∧
    bin_size = PyInt 50 ∧
    name_fn = variant_encoder.build_variant_to_binned_feature_name (PyInt 50).
Proof.
  destruct (@bin_size_selects_strategy Sample.columns Sample.collaborators
              (Sample.argv ++ [Option "--bin_size" "50"])%list
              (Sample.environment 3 Sample.variant_rows)
              (Sample.setup "03" (PyInt 50) (PyBool true)))
    as (bin_size & name_fn & words_fn & _ & Hfn & _ & Hbinned & _ & Hlast).
  - vm_compute. reflexivity.
  - destruct (Hlast Sample.argv "50" []) as (z & Hz & Hb).
    + reflexivity.
    + constructor.
    + assert (bin_size = PyInt 50) as Hb50.
      { rewrite Hb. vm_compute in Hz. injection Hz as <-. reflexivity. }
      exists bin_size, name_fn, words_fn. split; [exact Hfn|]. split; [exact Hb50|].
      rewrite <-Hb50. apply Hbinned. rewrite Hb50. discriminate.
Defined.



Lemma runs_write_apart_witness :
  temp_location (Sample.setup "03" PyNone (PyBool true)) =
    "gs://bucket/out/20170309-140503/tmp" ∧
  staging_location (Sample.setup "03" PyNone (PyBool true)) =
    "gs://bucket/out/20170309-140503/tmp/staging" ∧
  (∀ x y, output_dir (Sample.setup "03" PyNone (PyBool true)) ++ x ≠
          output_dir (Sample.setup "04" PyNone (PyBool true)) ++ y).
Proof.
  destruct (@runs_write_apart Sample.columns Sample.collaborators Sample.argv
              (Sample.environment 3 Sample.variant_rows)
              (Sample.environment 4 Sample.variant_rows)
              (Sample.setup "03" PyNone (PyBool true))
              (Sample.setup "04" PyNone (PyBool true)))
    as (_ & Htemp & Hstaging & _ & Hapart).
  - vm_compute. reflexivity.
  - vm_compute. reflexivity.
  - unfold datetime_valid. simpl. lia.
  - unfold datetime_valid. simpl. lia.
  - unfold to_the_second. simpl. intros [=].
  - split_and!; [exact Htemp|exact Hstaging|exact Hapart].
Defined.


(** ** The further properties on the sample instance *)

Lemma rows_partitioned_into_groups_witness :
  ∃ groups : list (pyval * list row),
    (∀ M E (md : M) (sample_to_example_fn : pyval → list row → M → result E),
       @variants_to_examples Sample.columns _ _ Sample.variant_rows [md]
         sample_to_example_fn =
       beam_Map (λ '(key, vals), sample_to_example_fn key vals md) groups) ∧
    mjoin groups.*2 ≡ₚ Sample.variant_rows ∧
    Forall (λ g, g.2 ≠ []) groups.
Proof.
  apply (@rows_partitioned_into_groups Sample.columns Sample.variant_rows).
  repeat constructor; by eexists.
Defined.

Lemma assembler_error_propagates_witness :
  is_Raise (@variants_to_examples Sample.columns _ _ Sample.variant_rows
              [Sample.metadata_dict] Sample.assemble_strict).
Proof.
  apply (@assembler_error_propagates Sample.columns _ _ Sample.assemble_strict
           Sample.variant_rows Sample.metadata_dict
           (Sample.variant "S2" "chr1" 200) (PyStr "S2")).
  - repeat constructor; by eexists.
  - right. left.
  - reflexivity.
  - eexists. vm_compute. reflexivity.
Defined.



Lemma last_path_option_wins_witness :
  ∃ stamp,
    strftime (Sample.clock 3) "%Y%m%d-%H%M%S" = Ok stamp ∧
    output_dir (Sample.setup "03" PyNone (PyBool true)) =
      os_path_join "gs://bucket/out" [stamp].
Proof.
  destruct (@last_path_option_wins Sample.columns Sample.collaborators
              (Option "--output" "elsewhere" :: Sample.argv)
              (Sample.environment 3 Sample.variant_rows)
              (Sample.setup "03" PyNone (PyBool true)))
    as (Hout & _ & _).
  - vm_compute. reflexivity.
  - apply (Hout [Option "--output" "elsewhere"] "gs://bucket/out"
             [Option "--input" "input.jinja"; Option "--metadata" "metadata.jinja"]).
    + reflexivity.
    + repeat constructor; discriminate.
Defined.

Example usage_note_command_line :
  @run_setup Sample.columns Sample.collaborators Sample.usage_argv
    (Sample.environment 3 Sample.variant_rows) =
  Ok (Sample.setup "03" PyNone (PyBool true)).
Proof. vm_compute. reflexivity. Qed.
